(** * RGB indicator driver for the TI LP5817 (rgb-indicator.c / rgb-indicator.h)

    A shallow embedding of the driver: the LP5817 bring-up sequence, the
    colour write path, and the flash scheduler formed by a one-shot kernel
    timer and a work item.  The driver's functions are written in a small
    state monad over a [world] that holds the indicator object, the trace of
    I2C transactions, the results the bus will hand back, and the error log.

    The Zephyr kernel is not part of the driver; it is modelled by the
    contract of the calls the driver makes:
    - [i2c_write_dt] appends one transaction to the bus trace and returns the
      result the bus gives for it (an arbitrary function of the position of
      the transaction in the trace);
    - [k_timer_start] arms the timer, [k_timer_stop] disarms it, and the
      expiry of an armed timer is an event that runs [flashTimerExpiry];
    - [k_work_submit] marks the work item pending (submitting a pending item
      changes nothing), and running a pending item is an event that clears
      the mark and calls [flashDisplay_handler]. *)

From Stdlib Require Import ZArith String List Bool Lia.
Import ListNotations.
Local Open Scope Z_scope.

(** ** Machine integers *)

(** [uint8_t]: a value of [Z] reduced modulo 2^8 when it is stored. *)
Definition wrap_u8 (x : Z) : Z := x mod 256.

(** [int] (32 bits, two's complement). *)
Definition wrap_int (x : Z) : Z := (x + 2147483648) mod 4294967296 - 2147483648.

(** ** Register map and command codes (rgb-indicator.h) *)

Module LP5817.
Definition REG_CHIPENABLE   : Z := 0x00.
Definition REG_MAXCURRENT   : Z := 0x01.
Definition REG_OUTENABLE    : Z := 0x02.
Definition REG_DOTCURRENT_0 : Z := 0x14.
Definition REG_DOTCURRENT_1 : Z := 0x15.
Definition REG_DOTCURRENT_2 : Z := 0x16.
Definition REG_UPDATE       : Z := 0x0f.

Definition REG_INTENSITY0   : Z := 0x18.
Definition REG_INTENSITY1   : Z := 0x19.
Definition REG_INTENSITY2   : Z := 0x1a.

Definition CMD_CHIPENABLE   : Z := 0x01.
Definition CMD_MAXCURRENT   : Z := 0x01.
Definition CMD_OUTENABLE    : Z := 0x07.
Definition CMD_UPDATE       : Z := 0x55.
End LP5817.

(** [const uint8_t dot_current[] = { 128, 128, 128 }] *)
Definition dot_current : list Z := [128; 128; 128].

(** ** Kernel objects *)

(** [k_timeout_t]: a tick count; [K_NO_WAIT] is zero ticks. *)
Record k_timeout_t := K_TICKS { ticks : Z }.
Definition K_NO_WAIT : k_timeout_t := K_TICKS 0.

(** [struct device], as far as [device_is_ready] and the log look at it. *)
Record device := { name : string; ready : bool }.
Definition device_is_ready (d : device) : bool := ready d.

(** [struct i2c_dt_spec]: the bus and the address of the chip on it. *)
Record i2c_dt_spec := { bus : device; addr : Z }.

(** [struct k_timer]: [running] is the duration the timer was armed with,
    [None] when it is stopped; [period] is the reload value. *)
Record k_timer := { running : option k_timeout_t; period : k_timeout_t }.

(** [struct k_work]: whether the item sits in the system work queue. *)
Record k_work := { pending : bool }.

(** ** Driver data (rgb-indicator.h) *)

Record led_rgb := RGB { r : Z; g : Z; b : Z }.

Record rgb_indicator_t := {
  rgbdev           : i2c_dt_spec;
  brightness       : Z;
  pixels           : led_rgb;
  flashesAsked     : Z;
  flashesPerformed : Z;
  onDuration       : k_timeout_t;
  offDuration      : k_timeout_t;
  flashTimer       : k_timer;
  flashState       : Z;
  flashWork        : k_work
}.

Definition set_rgbdev (v : i2c_dt_spec) (i : rgb_indicator_t) : rgb_indicator_t :=
  {| rgbdev := v; brightness := brightness i; pixels := pixels i;
     flashesAsked := flashesAsked i; flashesPerformed := flashesPerformed i;
     onDuration := onDuration i; offDuration := offDuration i;
     flashTimer := flashTimer i; flashState := flashState i;
     flashWork := flashWork i |}.

Definition set_pixels (v : led_rgb) (i : rgb_indicator_t) : rgb_indicator_t :=
  {| rgbdev := rgbdev i; brightness := brightness i; pixels := v;
     flashesAsked := flashesAsked i; flashesPerformed := flashesPerformed i;
     onDuration := onDuration i; offDuration := offDuration i;
     flashTimer := flashTimer i; flashState := flashState i;
     flashWork := flashWork i |}.

Definition set_flashesAsked (v : Z) (i : rgb_indicator_t) : rgb_indicator_t :=
  {| rgbdev := rgbdev i; brightness := brightness i; pixels := pixels i;
     flashesAsked := v; flashesPerformed := flashesPerformed i;
     onDuration := onDuration i; offDuration := offDuration i;
     flashTimer := flashTimer i; flashState := flashState i;
     flashWork := flashWork i |}.

Definition set_flashesPerformed (v : Z) (i : rgb_indicator_t) : rgb_indicator_t :=
  {| rgbdev := rgbdev i; brightness := brightness i; pixels := pixels i;
     flashesAsked := flashesAsked i; flashesPerformed := v;
     onDuration := onDuration i; offDuration := offDuration i;
     flashTimer := flashTimer i; flashState := flashState i;
     flashWork := flashWork i |}.

Definition set_onDuration (v : k_timeout_t) (i : rgb_indicator_t) : rgb_indicator_t :=
  {| rgbdev := rgbdev i; brightness := brightness i; pixels := pixels i;
     flashesAsked := flashesAsked i; flashesPerformed := flashesPerformed i;
     onDuration := v; offDuration := offDuration i;
     flashTimer := flashTimer i; flashState := flashState i;
     flashWork := flashWork i |}.

Definition set_offDuration (v : k_timeout_t) (i : rgb_indicator_t) : rgb_indicator_t :=
  {| rgbdev := rgbdev i; brightness := brightness i; pixels := pixels i;
     flashesAsked := flashesAsked i; flashesPerformed := flashesPerformed i;
     onDuration := onDuration i; offDuration := v;
     flashTimer := flashTimer i; flashState := flashState i;
     flashWork := flashWork i |}.

Definition set_flashTimer (v : k_timer) (i : rgb_indicator_t) : rgb_indicator_t :=
  {| rgbdev := rgbdev i; brightness := brightness i; pixels := pixels i;
     flashesAsked := flashesAsked i; flashesPerformed := flashesPerformed i;
     onDuration := onDuration i; offDuration := offDuration i;
     flashTimer := v; flashState := flashState i;
     flashWork := flashWork i |}.

Definition set_flashState (v : Z) (i : rgb_indicator_t) : rgb_indicator_t :=
  {| rgbdev := rgbdev i; brightness := brightness i; pixels := pixels i;
     flashesAsked := flashesAsked i; flashesPerformed := flashesPerformed i;
     onDuration := onDuration i; offDuration := offDuration i;
     flashTimer := flashTimer i; flashState := v;
     flashWork := flashWork i |}.

Definition set_flashWork (v : k_work) (i : rgb_indicator_t) : rgb_indicator_t :=
  {| rgbdev := rgbdev i; brightness := brightness i; pixels := pixels i;
     flashesAsked := flashesAsked i; flashesPerformed := flashesPerformed i;
     onDuration := onDuration i; offDuration := offDuration i;
     flashTimer := flashTimer i; flashState := flashState i;
     flashWork := v |}.

(** ** The world the driver runs in *)

(** One I2C write transaction: the chip address and the bytes sent. *)
Record i2c_msg := I2C_WRITE { msg_addr : Z; msg_buf : list Z }.

(** The messages the driver hands to [LOG_ERR]. *)
Inductive log_msg :=
| ErrBusNotReady (bus_name : string)
| ErrChipEnable (reg chip_addr err : Z)
| ErrMaxCurrent
| ErrDotCurrent
| ErrOutEnable
| ErrApply
| ErrUpdateIndicator.

Record world := {
  rgbi      : rgb_indicator_t;      (* the indicator object *)
  bus_log   : list i2c_msg;         (* transactions issued so far, oldest first *)
  bus_reply : nat -> Z;             (* result of the n-th transaction *)
  err_log   : list log_msg          (* LOG_ERR output, oldest first *)
}.

(** ** State monad over the world *)

Definition M (A : Type) : Type := world -> A * world.

Definition ret {A} (a : A) : M A := fun w => (a, w).
Definition bind {A B} (m : M A) (k : A -> M B) : M B :=
  fun w => let (a, w') := m w in k a w'.

Declare Scope drv_scope.
Delimit Scope drv_scope with drv.
Notation "x <- m ;; k" := (bind m (fun x => k))
  (at level 61, m at next level, right associativity) : drv_scope.
Notation "m ;; k" := (bind m (fun _ => k))
  (at level 61, right associativity) : drv_scope.
Local Open Scope drv_scope.

Definition eval {A} (m : M A) (w : world) : A := fst (m w).
Definition exec {A} (m : M A) (w : world) : world := snd (m w).

Definition when (c : bool) (m : M unit) : M unit := if c then m else ret tt.

(** Read and update the indicator object ([rgbi->field]). *)
Definition get_rgbi : M rgb_indicator_t := fun w => (rgbi w, w).
Definition upd_rgbi (f : rgb_indicator_t -> rgb_indicator_t) : M unit :=
  fun w => (tt, {| rgbi := f (rgbi w); bus_log := bus_log w;
                   bus_reply := bus_reply w; err_log := err_log w |}).

(** ** Kernel calls *)

Definition i2c_write_dt (spec : i2c_dt_spec) (buf : list Z) : M Z :=
  fun w => (bus_reply w (length (bus_log w)),
            {| rgbi := rgbi w;
               bus_log := bus_log w ++ [I2C_WRITE (addr spec) buf];
               bus_reply := bus_reply w; err_log := err_log w |}).

Definition LOG_ERR (m : log_msg) : M unit :=
  fun w => (tt, {| rgbi := rgbi w; bus_log := bus_log w;
                   bus_reply := bus_reply w; err_log := err_log w ++ [m] |}).

Definition k_timer_init : M unit :=
  upd_rgbi (set_flashTimer {| running := None; period := K_NO_WAIT |}).

Definition k_timer_start (duration per : k_timeout_t) : M unit :=
  upd_rgbi (set_flashTimer {| running := Some duration; period := per |}).

Definition k_timer_stop : M unit :=
  i <- get_rgbi ;;
  upd_rgbi (set_flashTimer {| running := None; period := period (flashTimer i) |}).

Definition k_work_init : M unit :=
  upd_rgbi (set_flashWork {| pending := false |}).

Definition k_work_submit : M unit :=
  upd_rgbi (set_flashWork {| pending := true |}).

(** ** Private service functions (rgb-indicator.c) *)

(** [lp5817_setColor]: three two-byte writes; only the result of the last
    one is looked at, and only to log. *)
Definition lp5817_setColor (rgb_ctrllr : i2c_dt_spec) (red green blue : Z) : M unit :=
  _ <- i2c_write_dt rgb_ctrllr [LP5817.REG_INTENSITY2; red] ;;
  _ <- i2c_write_dt rgb_ctrllr [LP5817.REG_INTENSITY0; green] ;;
  res <- i2c_write_dt rgb_ctrllr [LP5817.REG_INTENSITY1; blue] ;;
  when (negb (res =? 0)) (LOG_ERR ErrUpdateIndicator).

(** The body of [for (size_t i = 0; i < 3; i++)] in [lp5817_init], over the
    remaining values of [i]; [acc] is [ret]. *)
Fixpoint dot_current_loop (rgb_ctrllr : i2c_dt_spec) (idx : list nat) (acc : Z) : M Z :=
  match idx with
  | [] => ret acc
  | i :: rest =>
      res <- i2c_write_dt rgb_ctrllr
               [wrap_u8 (LP5817.REG_DOTCURRENT_0 + Z.of_nat i); nth i dot_current 0] ;;
      dot_current_loop rgb_ctrllr rest (wrap_int (acc + res))
  end.

Definition lp5817_init (rgb_ctrllr : i2c_dt_spec) : M Z :=
  if negb (device_is_ready (bus rgb_ctrllr)) then
    LOG_ERR (ErrBusNotReady (name (bus rgb_ctrllr))) ;;
    ret 0
  else
    res <- i2c_write_dt rgb_ctrllr [LP5817.REG_CHIPENABLE; LP5817.CMD_CHIPENABLE] ;;
    when (negb (res =? 0))
         (LOG_ERR (ErrChipEnable LP5817.REG_CHIPENABLE (addr rgb_ctrllr) res)) ;;
    res <- i2c_write_dt rgb_ctrllr [LP5817.REG_MAXCURRENT; LP5817.CMD_MAXCURRENT] ;;
    when (negb (res =? 0)) (LOG_ERR ErrMaxCurrent) ;;
    res <- dot_current_loop rgb_ctrllr (seq 0 3) 0 ;;
    when (negb (res =? 0)) (LOG_ERR ErrDotCurrent) ;;
    res <- i2c_write_dt rgb_ctrllr [LP5817.REG_OUTENABLE; LP5817.CMD_OUTENABLE] ;;
    when (negb (res =? 0)) (LOG_ERR ErrOutEnable) ;;
    lp5817_setColor rgb_ctrllr 0 0 0 ;;
    res <- i2c_write_dt rgb_ctrllr [LP5817.REG_UPDATE; LP5817.CMD_UPDATE] ;;
    when (negb (res =? 0)) (LOG_ERR ErrApply) ;;
    ret res.

Definition isFlashing : M bool :=
  i <- get_rgbi ;;
  ret (0 <? ticks (onDuration i)).

(** ** Public API *)

(** [rgbi_init]; [k_timer_user_data_set] stores the back pointer to the
    indicator, which is the one indicator of the world here. *)
Definition rgbi_init (rgb_dev : i2c_dt_spec) : M Z :=
  res <- lp5817_init rgb_dev ;;
  if res =? 0 then
    upd_rgbi (set_rgbdev rgb_dev) ;;
    k_timer_init ;;
    k_work_init ;;
    ret 0
  else
    ret (-1).

Definition rgbi_setColor (channels : led_rgb) : M unit :=
  i <- get_rgbi ;;
  lp5817_setColor (rgbdev i) (r channels) (g channels) (b channels).

Definition rgbi_setColorFromPixels (red green blue : Z) : M unit :=
  i <- get_rgbi ;;
  lp5817_setColor (rgbdev i) red green blue.

Definition rgbi_off : M unit :=
  busy <- isFlashing ;;
  when (negb busy) (rgbi_setColorFromPixels 0 0 0).

Definition rgbi_flash (px : led_rgb) (onDur offDur : k_timeout_t) (count : Z) : M unit :=
  upd_rgbi (set_onDuration onDur) ;;
  upd_rgbi (set_offDuration offDur) ;;
  upd_rgbi (set_flashesAsked count) ;;
  upd_rgbi (set_flashesPerformed 0) ;;
  upd_rgbi (set_pixels px) ;;
  rgbi_setColor px ;;
  i <- get_rgbi ;;
  k_timer_start (onDuration i) K_NO_WAIT ;;
  upd_rgbi (set_flashState 1).

Definition rgbi_isBusy : M bool := isFlashing.

Definition rgbi_cancel : M unit :=
  k_timer_stop ;;
  upd_rgbi (set_onDuration K_NO_WAIT) ;;
  rgbi_off.

(** ** The flash scheduler *)

(** [flashTimerExpiry]: the timer callback only submits the work item. *)
Definition flashTimerExpiry : M unit := k_work_submit.

(** [flashDisplay_handler]: the work-queue handler. *)
Definition flashDisplay_handler : M unit :=
  i <- get_rgbi ;;
  if 0 <? ticks (onDuration i) then
    if negb (flashState i =? 0) then
      rgbi_setColorFromPixels 0 0 0 ;;
      upd_rgbi (set_flashState 0) ;;
      upd_rgbi (fun i => set_flashesPerformed (wrap_u8 (flashesPerformed i + 1)) i) ;;
      i <- get_rgbi ;;
      if (flashesPerformed i <? flashesAsked i) || (flashesAsked i =? 0) then
        k_timer_start (offDuration i) K_NO_WAIT
      else
        upd_rgbi (set_flashesAsked 0) ;;
        upd_rgbi (set_flashesPerformed 0) ;;
        upd_rgbi (set_onDuration K_NO_WAIT)
    else
      upd_rgbi (set_flashState 1) ;;
      i <- get_rgbi ;;
      if flashesPerformed i <? flashesAsked i then
        rgbi_setColor (pixels i) ;;
        i <- get_rgbi ;;
        k_timer_start (onDuration i) K_NO_WAIT
      else
        ret tt
  else
    ret tt.

(** ** Kernel events *)

Inductive event := TimerExpiry | WorkRun.

(** The timer can expire only while it runs; the work item can run only
    while it is pending. *)
Definition enabled (e : event) (w : world) : bool :=
  match e with
  | TimerExpiry =>
      match running (flashTimer (rgbi w)) with Some _ => true | None => false end
  | WorkRun => pending (flashWork (rgbi w))
  end.

(** Expiry of the timer: a timer started with a zero period is one-shot and
    stops; the expiry function is then called. *)
Definition timer_expire : M unit :=
  i <- get_rgbi ;;
  let per := period (flashTimer i) in
  upd_rgbi (set_flashTimer
              {| running := if 0 <? ticks per then Some per else None;
                 period := per |}) ;;
  flashTimerExpiry.

(** The work queue takes the item off the queue and calls its handler. *)
Definition work_run : M unit :=
  upd_rgbi (set_flashWork {| pending := false |}) ;;
  flashDisplay_handler.

(** One event; an event that is not enabled does not happen. *)
Definition deliver (e : event) : M unit :=
  fun w =>
    if enabled e w then
      match e with
      | TimerExpiry => timer_expire w
      | WorkRun => work_run w
      end
    else (tt, w).

Fixpoint schedule (evs : list event) : M unit :=
  match evs with
  | [] => ret tt
  | e :: rest => deliver e ;; schedule rest
  end.

(** One timer period of the flash sequence: the timer expires and the work
    item it submitted runs. *)
Definition flash_round : list event := [TimerExpiry; WorkRun].

Fixpoint rounds (n : nat) : list event :=
  match n with
  | O => []
  | S k => flash_round ++ rounds k
  end.

(** ** Bus traces *)

(** The three transactions of one colour change on the chip at [dev]. *)
Definition color_writes (dev : i2c_dt_spec) (red green blue : Z) : list i2c_msg :=
  [ I2C_WRITE (addr dev) [0x1a; red];
    I2C_WRITE (addr dev) [0x18; green];
    I2C_WRITE (addr dev) [0x19; blue] ].

Definition on_writes (dev : i2c_dt_spec) (px : led_rgb) : list i2c_msg :=
  color_writes dev (r px) (g px) (b px).

Definition off_writes (dev : i2c_dt_spec) : list i2c_msg :=
  color_writes dev 0 0 0.

(** [n] on/off pulses. *)
Fixpoint pulses (dev : i2c_dt_spec) (px : led_rgb) (n : nat) : list i2c_msg :=
  match n with
  | O => []
  | S k => on_writes dev px ++ off_writes dev ++ pulses dev px k
  end.

(** The bring-up sequence of [lp5817_init] on the chip at [dev]. *)
Definition init_writes (dev : i2c_dt_spec) : list i2c_msg :=
  [ I2C_WRITE (addr dev) [0x00; 0x01];
    I2C_WRITE (addr dev) [0x01; 0x01];
    I2C_WRITE (addr dev) [0x14; 128];
    I2C_WRITE (addr dev) [0x15; 128];
    I2C_WRITE (addr dev) [0x16; 128];
    I2C_WRITE (addr dev) [0x02; 0x07];
    I2C_WRITE (addr dev) [0x1a; 0];
    I2C_WRITE (addr dev) [0x18; 0];
    I2C_WRITE (addr dev) [0x19; 0];
    I2C_WRITE (addr dev) [0x0f; 0x55] ].

(** ** Sample worlds *)

Definition sample_bus : device := {| name := "i2c0"; ready := true |}.
Definition sample_dev : i2c_dt_spec := {| bus := sample_bus; addr := 0x2d |}.
Definition down_bus : device := {| name := "i2c0"; ready := false |}.
Definition down_dev : i2c_dt_spec := {| bus := down_bus; addr := 0x2d |}.

Definition idle_indicator : rgb_indicator_t :=
  {| rgbdev := sample_dev; brightness := 0; pixels := RGB 0 0 0;
     flashesAsked := 0; flashesPerformed := 0;
     onDuration := K_NO_WAIT; offDuration := K_NO_WAIT;
     flashTimer := {| running := None; period := K_NO_WAIT |};
     flashState := 0; flashWork := {| pending := false |} |}.

(** A bus on which every write succeeds. *)
Definition sample_world : world :=
  {| rgbi := idle_indicator; bus_log := []; bus_reply := fun _ => 0; err_log := [] |}.

(** A bus on which the first write fails with [-EIO] and the others succeed. *)
Definition first_write_fails : world :=
  {| rgbi := idle_indicator; bus_log := [];
     bus_reply := fun n => match n with O => -5 | _ => 0 end; err_log := [] |}.

Definition LED_RED : led_rgb := RGB 100 0 0.

(** A world in the middle of a counted flash sequence. *)
Definition busy_world : world :=
  exec (rgbi_flash LED_RED (K_TICKS 100) (K_TICKS 200) 3) sample_world.

(** ** Scheduler states *)

(** Idle with the timer stopped: what [rgbi_cancel] and the end of a counted
    sequence leave behind. *)
Definition idle_stopped (w : world) : Prop :=
  ticks (onDuration (rgbi w)) = 0
  /\ running (flashTimer (rgbi w)) = None.

(** A continuous sequence with on-duration [onDur] is active. *)
Definition continuous (onDur : k_timeout_t) (w : world) : Prop :=
  flashesAsked (rgbi w) = 0
  /\ onDuration (rgbi w) = onDur.

(** A continuous sequence that has reached its off phase: either the off
    phase is still being waited out ([flashState] is 0), or the handler has
    already run once more and nothing is armed or queued. *)
Definition continuous_off (w : world) : Prop :=
  flashesAsked (rgbi w) = 0
  /\ 0 <= flashesPerformed (rgbi w)
  /\ period (flashTimer (rgbi w)) = K_NO_WAIT
  /\ (flashState (rgbi w) = 0
      \/ (running (flashTimer (rgbi w)) = None
          /\ pending (flashWork (rgbi w)) = false))
  /\ (running (flashTimer (rgbi w)) <> None
      -> pending (flashWork (rgbi w)) = false).

(** A counted sequence of [count] flashes, [done] of them completed, showing
    [px] on the chip at [dev]; [phase] is the value of [flashState] (1 in
    the on phase, 0 in the off phase) and the timer is running. *)
Definition counted (phase : Z) (dev : i2c_dt_spec) (px : led_rgb)
    (onDur : k_timeout_t) (count done : Z) (w : world) : Prop :=
  rgbdev (rgbi w) = dev
  /\ pixels (rgbi w) = px
  /\ onDuration (rgbi w) = onDur
  /\ flashesAsked (rgbi w) = count
  /\ flashesPerformed (rgbi w) = done
  /\ flashState (rgbi w) = phase
  /\ running (flashTimer (rgbi w)) <> None
  /\ period (flashTimer (rgbi w)) = K_NO_WAIT.

(** The end of a counted sequence: idle, counters cleared, nothing armed or
    queued. *)
Definition finished (w : world) : Prop :=
  flashesAsked (rgbi w) = 0
  /\ flashesPerformed (rgbi w) = 0
  /\ onDuration (rgbi w) = K_NO_WAIT
  /\ running (flashTimer (rgbi w)) = None
  /\ pending (flashWork (rgbi w)) = false.

(** ** Runs of the scheduler *)

(** A continuous sequence is started and its first on phase elapses: the
    work item has run once and has entered the off phase. *)
Definition continuous_until_off (px : led_rgb) (onDur offDur : k_timeout_t) : M unit :=
  rgbi_flash px onDur offDur 0 ;;
  schedule flash_round.

(** A counted sequence of [count] flashes is started and the timer expires,
    each time followed by the work item, [2 * count - 1] times. *)
Definition counted_sequence (px : led_rgb) (onDur offDur : k_timeout_t)
    (count : Z) : M unit :=
  rgbi_flash px onDur offDur count ;;
  schedule (rounds (2 * Z.to_nat count - 1)).

(** ** Further traces and scheduler states *)

(** The result the bus gives to the [k]-th write issued from [w] on. *)
Definition reply_at (w : world) (k : nat) : Z :=
  bus_reply w (length (bus_log w) + k)%nat.

(** [k] complete pulses, followed by the on colour alone when [lit]. *)
Definition flash_trace (dev : i2c_dt_spec) (px : led_rgb) (k : nat) (lit : bool)
  : list i2c_msg :=
  pulses dev px k ++ (if lit then on_writes dev px else []).

(** A counted sequence at a known point: as [counted], with the off-duration
    on record and the timer armed for the duration of the current phase. *)
Definition sequence_at (phase : Z) (dev : i2c_dt_spec) (px : led_rgb)
    (onDur offDur : k_timeout_t) (count done : Z) (w : world) : Prop :=
  counted phase dev px onDur count done w
  /\ offDuration (rgbi w) = offDur
  /\ running (flashTimer (rgbi w))
     = Some (if phase =? 0 then offDur else onDur).

(** What every reachable state of a counted sequence started on the trace
    [before] looks like: either the sequence is active with [k < count]
    flashes completed and the trace is [k] pulses (plus the on colour in the
    on phase), or it is over and the trace is [count] pulses. *)
Definition counted_progress (before : list i2c_msg) (dev : i2c_dt_spec)
    (px : led_rgb) (onDur : k_timeout_t) (count : Z) (w : world) : Prop :=
  rgbdev (rgbi w) = dev
  /\ pixels (rgbi w) = px
  /\ ((onDuration (rgbi w) = onDur
       /\ flashesAsked (rgbi w) = count
       /\ exists k : nat,
           flashesPerformed (rgbi w) = Z.of_nat k
           /\ Z.of_nat k < count
           /\ ((flashState (rgbi w) = 1
                /\ bus_log w = before ++ flash_trace dev px k true)
               \/ (flashState (rgbi w) = 0
                   /\ bus_log w = before ++ flash_trace dev px k false)))
      \/ (ticks (onDuration (rgbi w)) = 0
          /\ bus_log w = before ++ pulses dev px (Z.to_nat count))).

(** The on phase of a continuous sequence started on the trace [before]:
    only the on colour has been written. *)
Definition continuous_lit (before : list i2c_msg) (dev : i2c_dt_spec)
    (px : led_rgb) (w : world) : Prop :=
  rgbdev (rgbi w) = dev
  /\ flashesAsked (rgbi w) = 0
  /\ 0 < ticks (onDuration (rgbi w))
  /\ flashState (rgbi w) = 1
  /\ bus_log w = before ++ on_writes dev px.

(** A world in which a work item submitted earlier is still queued. *)
Definition stale_world : world :=
  exec k_work_submit sample_world.

(** * Properties *)

(** ** Tactics and monad equations *)

(** Split on the result of a bus write that is only compared with zero. *)
Ltac split_write_result :=
  match goal with
  | |- context [negb (?x =? 0)] => destruct (x =? 0)
  end.

(** Unfold the monad, the kernel calls and the driver's functions, leaving
    arithmetic and the bus results alone. *)
Ltac unfold_driver :=
  cbv beta iota zeta delta
    [exec eval bind ret when
     get_rgbi upd_rgbi i2c_write_dt LOG_ERR
     k_timer_init k_timer_start k_timer_stop k_work_init k_work_submit
     lp5817_setColor dot_current_loop seq nth dot_current lp5817_init
     isFlashing rgbi_init rgbi_setColor rgbi_setColorFromPixels rgbi_off
     rgbi_flash rgbi_isBusy rgbi_cancel
     flashTimerExpiry flashDisplay_handler timer_expire work_run];
  cbn [fst snd negb orb andb Z.ltb Z.eqb Z.compare
       rgbi bus_log bus_reply err_log
       set_rgbdev set_pixels set_flashesAsked set_flashesPerformed
       set_onDuration set_offDuration set_flashTimer set_flashState
       set_flashWork K_NO_WAIT
       rgbdev brightness pixels flashesAsked flashesPerformed onDuration
       offDuration flashTimer flashState flashWork
       running period pending ticks r g b].

(** Evaluate a driver call, splitting on bus results where the code tests
    them. *)
Ltac run_driver := unfold_driver; repeat (split_write_result; unfold_driver).

Lemma exec_bind {A B} (m : M A) (k : A -> M B) (w : world) :
  exec (bind m k) w = exec (k (eval m w)) (exec m w).
Proof. unfold exec, eval, bind. destruct (m w); reflexivity. Qed.

Lemma eval_bind {A B} (m : M A) (k : A -> M B) (w : world) :
  eval (bind m k) w = eval (k (eval m w)) (exec m w).
Proof. unfold exec, eval, bind. destruct (m w); reflexivity. Qed.

Lemma exec_schedule_app (xs ys : list event) (w : world) :
  exec (schedule (xs ++ ys)) w = exec (schedule ys) (exec (schedule xs) w).
Proof.
  revert w. induction xs as [|e xs IH]; intro w.
  - reflexivity.
  - cbn [schedule app]. rewrite !exec_bind. apply IH.
Qed.

(** ** Colour write path *)

Lemma lp5817_setColor_log dev red green blue w :
  bus_log (exec (lp5817_setColor dev red green blue) w)
  = bus_log w ++ color_writes dev red green blue.
Proof.
  run_driver; now rewrite <- !app_assoc.
Qed.

Lemma lp5817_setColor_rgbi dev red green blue w :
  rgbi (exec (lp5817_setColor dev red green blue) w) = rgbi w.
Proof. now run_driver. Qed.

Lemma lp5817_setColor_reply dev red green blue w :
  bus_reply (exec (lp5817_setColor dev red green blue) w) = bus_reply w.
Proof. now run_driver. Qed.

(** C8. For every (red, green, blue) the colour write path issues exactly
    three register writes, in this order: red to intensity register 2 (0x1a),
    green to intensity register 0 (0x18), blue to intensity register 1 (0x19).
    Each write carries the value it was given, unscaled and unchecked, and
    the indicator object is left as it was.  The two public entry points
    write the same three transactions to the bound device. *)
Theorem setColor_channel_remap :
  forall (dev : i2c_dt_spec) (red green blue : Z) (w : world),
    bus_log (exec (lp5817_setColor dev red green blue) w)
    = bus_log w ++ [ I2C_WRITE (addr dev) [0x1a; red];
                     I2C_WRITE (addr dev) [0x18; green];
                     I2C_WRITE (addr dev) [0x19; blue] ]
    /\ rgbi (exec (lp5817_setColor dev red green blue) w) = rgbi w
    /\ exec (rgbi_setColorFromPixels red green blue) w
       = exec (lp5817_setColor (rgbdev (rgbi w)) red green blue) w
    /\ exec (rgbi_setColor (RGB red green blue)) w
       = exec (lp5817_setColor (rgbdev (rgbi w)) red green blue) w.
Proof.
  intros dev red green blue w. split; [|split; [|split]].
  - apply lp5817_setColor_log.
  - apply lp5817_setColor_rgbi.
  - reflexivity.
  - reflexivity.
Qed.

(** ** Solid-colour facade *)

(** C9. While a flash sequence is active ([rgbi_isBusy] returns true),
    [rgbi_off] leaves the whole world as it was: no bus write, no log
    output, no change to any field of the indicator. *)
Theorem rgbi_off_busy_noop :
  forall w : world, eval rgbi_isBusy w = true -> exec rgbi_off w = w.
Proof.
  intros w Hbusy. unfold eval, rgbi_isBusy, isFlashing in Hbusy. cbn in Hbusy.
  unfold exec, rgbi_off, isFlashing. cbn. rewrite Hbusy. reflexivity.
Qed.

Lemma rgbi_off_busy_noop_witness :
  eval rgbi_isBusy busy_world = true /\ exec rgbi_off busy_world = busy_world.
Proof.
  split; [reflexivity | apply (rgbi_off_busy_noop busy_world); reflexivity].
Defined.

(** ** Device initialisation *)

Arguments wrap_int x : simpl never.

Lemma lp5817_init_ready_log dev w :
  device_is_ready (bus dev) = true ->
  bus_log (exec (lp5817_init dev) w) = bus_log w ++ init_writes dev.
Proof.
  intro Hready. unfold exec, lp5817_init. rewrite Hready.
  run_driver; rewrite <- !app_assoc; reflexivity.
Qed.

Lemma lp5817_init_ready_rgbi dev w :
  rgbi (exec (lp5817_init dev) w) = rgbi w.
Proof.
  unfold exec, lp5817_init.
  destruct (device_is_ready (bus dev)); now run_driver.
Qed.

(** On a ready bus the value [lp5817_init] returns is the result of its last
    write, the tenth transaction it issues. *)
Lemma lp5817_init_ready_result dev w :
  device_is_ready (bus dev) = true ->
  eval (lp5817_init dev) w = bus_reply w (length (bus_log w) + 9)%nat.
Proof.
  intro Hready. unfold eval, lp5817_init. rewrite Hready.
  run_driver; rewrite !length_app; cbn [length];
    f_equal; lia.
Qed.

(** On a bus that is not ready [lp5817_init] writes nothing, logs the
    condition, and returns 0. *)
Lemma lp5817_init_not_ready dev w :
  device_is_ready (bus dev) = false ->
  eval (lp5817_init dev) w = 0
  /\ bus_log (exec (lp5817_init dev) w) = bus_log w
  /\ err_log (exec (lp5817_init dev) w)
     = err_log w ++ [ErrBusNotReady (name (bus dev))].
Proof.
  intro Hready. unfold eval, exec, lp5817_init. rewrite Hready.
  run_driver. auto.
Qed.

Lemma rgbi_init_log dev w :
  bus_log (exec (rgbi_init dev) w) = bus_log (exec (lp5817_init dev) w).
Proof.
  unfold rgbi_init. rewrite exec_bind.
  destruct (eval (lp5817_init dev) w =? 0); reflexivity.
Qed.

Lemma rgbi_init_result dev w :
  eval (rgbi_init dev) w = if eval (lp5817_init dev) w =? 0 then 0 else -1.
Proof.
  unfold rgbi_init. rewrite eval_bind.
  destruct (eval (lp5817_init dev) w =? 0); reflexivity.
Qed.

(** C2 (evaluation at the failing input).  With a bus that is not ready,
    [lp5817_init] logs the condition and returns 0, the success code, so
    [rgbi_init] returns 0 as well and binds the device.  No bus write is
    issued. *)
Theorem init_bus_not_ready_returns_success :
  device_is_ready (bus down_dev) = false
  /\ eval (lp5817_init down_dev) sample_world = 0
  /\ eval (rgbi_init down_dev) sample_world = 0
  /\ rgbdev (rgbi (exec (rgbi_init down_dev) sample_world)) = down_dev
  /\ bus_log (exec (rgbi_init down_dev) sample_world) = []
  /\ err_log (exec (rgbi_init down_dev) sample_world) = [ErrBusNotReady "i2c0"].
Proof. repeat split. Qed.

(** C5 (evaluation at the failing input).  On a ready bus whose first write
    (chip enable) fails with -5 and whose other writes succeed, all ten
    writes are issued and the failure is logged, yet [lp5817_init] returns 0
    and [rgbi_init] returns 0: the result is that of the last write only. *)
Theorem init_first_write_fails_returns_success :
  bus_reply first_write_fails 0%nat = -5
  /\ bus_log (exec (lp5817_init sample_dev) first_write_fails)
     = init_writes sample_dev
  /\ err_log (exec (lp5817_init sample_dev) first_write_fails)
     = [ErrChipEnable 0x00 0x2d (-5)]
  /\ eval (lp5817_init sample_dev) first_write_fails = 0
  /\ eval (rgbi_init sample_dev) first_write_fails = 0.
Proof. repeat split. Qed.

(** C7 (as stated, refuted).  On a ready bus with every write succeeding,
    [lp5817_init] issues ten transactions, not nine. *)
Lemma init_nine_writes_counterexample :
  device_is_ready (bus sample_dev) = true
  /\ length (bus_log (exec (lp5817_init sample_dev) sample_world)) = 10%nat
  /\ length (bus_log (exec (lp5817_init sample_dev) sample_world))
     <> (length (bus_log sample_world) + 9)%nat.
Proof. repeat split. cbn. discriminate. Qed.

(** C7 (amended).  On a ready bus, whatever results the individual writes
    return, [lp5817_init] (and so [rgbi_init]) issues exactly ten two-byte
    register writes in this fixed order: chip enable, max current, the three
    dot currents (channels 0, 1, 2), output enable, the three zero intensity
    writes, update. *)
Theorem init_ten_writes_fixed_order :
  forall (dev : i2c_dt_spec) (w : world),
    device_is_ready (bus dev) = true ->
    bus_log (exec (lp5817_init dev) w)
    = bus_log w ++ [ I2C_WRITE (addr dev) [0x00; 0x01];
                     I2C_WRITE (addr dev) [0x01; 0x01];
                     I2C_WRITE (addr dev) [0x14; 128];
                     I2C_WRITE (addr dev) [0x15; 128];
                     I2C_WRITE (addr dev) [0x16; 128];
                     I2C_WRITE (addr dev) [0x02; 0x07];
                     I2C_WRITE (addr dev) [0x1a; 0];
                     I2C_WRITE (addr dev) [0x18; 0];
                     I2C_WRITE (addr dev) [0x19; 0];
                     I2C_WRITE (addr dev) [0x0f; 0x55] ]
    /\ bus_log (exec (rgbi_init dev) w) = bus_log (exec (lp5817_init dev) w)
    /\ length (bus_log (exec (lp5817_init dev) w))
       = (length (bus_log w) + 10)%nat
    /\ Forall (fun m => length (msg_buf m) = 2%nat) (init_writes dev).
Proof.
  intros dev w Hready.
  pose proof (lp5817_init_ready_log dev w Hready) as Hlog.
  split; [exact Hlog | split; [apply rgbi_init_log | split]].
  - rewrite Hlog, length_app. reflexivity.
  - repeat constructor.
Qed.

Lemma init_ten_writes_fixed_order_witness :
  device_is_ready (bus sample_dev) = true
  /\ bus_log (exec (lp5817_init sample_dev) first_write_fails)
     = bus_log first_write_fails ++ init_writes sample_dev.
Proof.
  split; [reflexivity|].
  apply (init_ten_writes_fixed_order sample_dev first_write_fails). reflexivity.
Defined.

(** ** Flash scheduler: the handler when idle, and cancellation *)

(** With a zero (or negative) on-duration the handler returns at once. *)
Lemma flashDisplay_handler_idle w :
  ticks (onDuration (rgbi w)) <= 0 ->
  exec flashDisplay_handler w = w.
Proof.
  intro Hidle.
  assert (Hlt : (0 <? ticks (onDuration (rgbi w))) = false) by (apply Z.ltb_ge; lia).
  unfold_driver. rewrite Hlt. reflexivity.
Qed.

Lemma rgbi_cancel_rgbi w :
  rgbi (exec rgbi_cancel w)
  = set_onDuration K_NO_WAIT
      (set_flashTimer {| running := None; period := period (flashTimer (rgbi w)) |}
         (rgbi w)).
Proof. run_driver; reflexivity. Qed.

Lemma rgbi_cancel_log w :
  bus_log (exec rgbi_cancel w) = bus_log w ++ off_writes (rgbdev (rgbi w)).
Proof. run_driver; rewrite <- !app_assoc; reflexivity. Qed.

Lemma rgbi_cancel_idle_stopped w : idle_stopped (exec rgbi_cancel w).
Proof. unfold idle_stopped. rewrite rgbi_cancel_rgbi. split; reflexivity. Qed.

(** In an idle world with the timer stopped, an event changes at most the
    pending mark of the work item. *)
Lemma deliver_idle_stopped e w :
  idle_stopped w ->
  idle_stopped (exec (deliver e) w)
  /\ bus_log (exec (deliver e) w) = bus_log w
  /\ err_log (exec (deliver e) w) = err_log w.
Proof.
  intros [Hon Hrun]. unfold exec, deliver, enabled, idle_stopped.
  destruct e.
  - rewrite Hrun. cbn [snd]. auto.
  - destruct (pending (flashWork (rgbi w))); cbn [snd]; auto.
    unfold work_run. fold (exec (bind (upd_rgbi (set_flashWork {| pending := false |}))
                                   (fun _ => flashDisplay_handler)) w).
    rewrite exec_bind, flashDisplay_handler_idle
      by (change (ticks (onDuration (rgbi w)) <= 0); lia).
    cbn. auto.
Qed.

Lemma schedule_idle_stopped evs : forall w,
  idle_stopped w ->
  idle_stopped (exec (schedule evs) w)
  /\ bus_log (exec (schedule evs) w) = bus_log w
  /\ err_log (exec (schedule evs) w) = err_log w.
Proof.
  induction evs as [|e evs IH]; intros w Hw.
  - cbn. auto.
  - cbn [schedule]. rewrite exec_bind.
    destruct (deliver_idle_stopped e w Hw) as (Hw' & Hlog & Herr).
    destruct (IH _ Hw') as (Hw'' & Hlog' & Herr').
    rewrite Hlog', Herr'. auto.
Qed.

(** C6. Whatever the state of the indicator, [rgbi_cancel] issues the off
    colour (0,0,0) as its three writes, leaves the timer stopped and the
    indicator idle, and after it no sequence of timer expiries and work-item
    runs adds a bus write. *)
Theorem rgbi_cancel_stops_and_turns_off :
  forall (w : world) (evs : list event),
    bus_log (exec rgbi_cancel w)
    = bus_log w ++ [ I2C_WRITE (addr (rgbdev (rgbi w))) [0x1a; 0];
                     I2C_WRITE (addr (rgbdev (rgbi w))) [0x18; 0];
                     I2C_WRITE (addr (rgbdev (rgbi w))) [0x19; 0] ]
    /\ running (flashTimer (rgbi (exec rgbi_cancel w))) = None
    /\ enabled TimerExpiry (exec rgbi_cancel w) = false
    /\ eval rgbi_isBusy (exec rgbi_cancel w) = false
    /\ bus_log (exec (schedule evs) (exec rgbi_cancel w))
       = bus_log (exec rgbi_cancel w)
    /\ running (flashTimer (rgbi (exec (schedule evs) (exec rgbi_cancel w)))) = None.
Proof.
  intros w evs.
  pose proof (rgbi_cancel_idle_stopped w) as Hidle.
  destruct (schedule_idle_stopped evs _ Hidle) as ((_ & Hrun') & Hlog' & _).
  destruct Hidle as (Hon & Hrun).
  repeat split; auto.
  - apply rgbi_cancel_log.
  - unfold enabled. now rewrite Hrun.
  - unfold eval, rgbi_isBusy, isFlashing, bind, get_rgbi, ret. cbn [fst].
    rewrite Hon. reflexivity.
Qed.

(** C10. A work item left in the queue when [rgbi_cancel] ran finds the
    on-duration at zero: the handler returns the world unchanged (no bus
    write, no log output, no field of the indicator touched, the timer still
    stopped), and running the item changes only its pending mark. *)
Theorem stale_work_after_cancel_is_noop :
  forall w : world,
    ticks (onDuration (rgbi (exec rgbi_cancel w))) = 0
    /\ exec flashDisplay_handler (exec rgbi_cancel w) = exec rgbi_cancel w
    /\ exec work_run (exec rgbi_cancel w)
       = exec (upd_rgbi (set_flashWork {| pending := false |})) (exec rgbi_cancel w)
    /\ bus_log (exec (deliver WorkRun) (exec rgbi_cancel w))
       = bus_log (exec rgbi_cancel w)
    /\ running (flashTimer (rgbi (exec (deliver WorkRun) (exec rgbi_cancel w)))) = None.
Proof.
  intro w.
  pose proof (rgbi_cancel_idle_stopped w) as Hidle.
  destruct (deliver_idle_stopped WorkRun _ Hidle) as ((_ & Hrun') & Hlog' & _).
  destruct Hidle as (Hon & Hrun).
  repeat split; auto.
  - apply flashDisplay_handler_idle. lia.
  - unfold work_run. rewrite exec_bind.
    apply flashDisplay_handler_idle.
    change (ticks (onDuration (rgbi (exec rgbi_cancel w))) <= 0). lia.
Qed.

(** ** Flash scheduler: what the handler and the events do *)

(** Projections of an updated indicator. *)
Ltac simpl_fields :=
  cbn [set_rgbdev set_pixels set_flashesAsked set_flashesPerformed
       set_onDuration set_offDuration set_flashTimer set_flashState
       set_flashWork
       rgbdev brightness pixels flashesAsked flashesPerformed onDuration
       offDuration flashTimer flashState flashWork
       running period pending ticks K_NO_WAIT] in *.

Lemma exec_upd_rgbi f w :
  rgbi (exec (upd_rgbi f) w) = f (rgbi w)
  /\ bus_log (exec (upd_rgbi f) w) = bus_log w
  /\ bus_reply (exec (upd_rgbi f) w) = bus_reply w
  /\ err_log (exec (upd_rgbi f) w) = err_log w.
Proof. cbn. auto. Qed.

(** The handler in the on phase: the off colour is written, the flash is
    counted, and either the off phase is timed or the sequence ends. *)
Lemma flashDisplay_handler_on w :
  0 < ticks (onDuration (rgbi w)) ->
  flashState (rgbi w) <> 0 ->
  bus_log (exec flashDisplay_handler w) = bus_log w ++ off_writes (rgbdev (rgbi w))
  /\ rgbi (exec flashDisplay_handler w)
     = (let i := set_flashesPerformed (wrap_u8 (flashesPerformed (rgbi w) + 1))
                   (set_flashState 0 (rgbi w)) in
        if (flashesPerformed i <? flashesAsked i) || (flashesAsked i =? 0)
        then set_flashTimer {| running := Some (offDuration i); period := K_NO_WAIT |} i
        else set_onDuration K_NO_WAIT
               (set_flashesPerformed 0 (set_flashesAsked 0 i))).
Proof.
  intros Hon Hstate.
  apply Z.ltb_lt in Hon. apply Z.eqb_neq in Hstate.
  unfold_driver. rewrite Hon, Hstate. run_driver.
  all: match goal with
       | |- context [if ?c then _ else _] => destruct c
       end; cbn [snd rgbi bus_log]; rewrite <- !app_assoc; split; reflexivity.
Qed.

(** The handler in the off phase: the state flag goes back to on, and the
    colour is written and the on phase timed only while flashes remain. *)
Lemma flashDisplay_handler_off w :
  0 < ticks (onDuration (rgbi w)) ->
  flashState (rgbi w) = 0 ->
  (flashesPerformed (rgbi w) < flashesAsked (rgbi w) ->
   bus_log (exec flashDisplay_handler w)
   = bus_log w ++ on_writes (rgbdev (rgbi w)) (pixels (rgbi w))
   /\ rgbi (exec flashDisplay_handler w)
      = set_flashTimer {| running := Some (onDuration (rgbi w)); period := K_NO_WAIT |}
          (set_flashState 1 (rgbi w)))
  /\ (flashesAsked (rgbi w) <= flashesPerformed (rgbi w) ->
      bus_log (exec flashDisplay_handler w) = bus_log w
      /\ rgbi (exec flashDisplay_handler w) = set_flashState 1 (rgbi w)).
Proof.
  intros Hon Hstate.
  apply Z.ltb_lt in Hon. apply Z.eqb_eq in Hstate.
  split; intro Hcount;
    [apply Z.ltb_lt in Hcount | apply Z.ltb_ge in Hcount];
    unfold_driver; rewrite Hon, Hstate; unfold_driver; rewrite Hcount;
    run_driver; rewrite <- ?app_assoc; split; reflexivity.
Qed.

(** Expiry of a running one-shot timer: it stops and the work item is
    submitted. *)
Lemma deliver_timer_expiry w d :
  running (flashTimer (rgbi w)) = Some d ->
  period (flashTimer (rgbi w)) = K_NO_WAIT ->
  exec (deliver TimerExpiry) w
  = exec (upd_rgbi (fun i => set_flashWork {| pending := true |}
                     (set_flashTimer {| running := None; period := K_NO_WAIT |} i))) w.
Proof.
  intros Hrun Hper. unfold exec, deliver, enabled. rewrite Hrun.
  unfold_driver. rewrite Hper. reflexivity.
Qed.

Lemma deliver_timer_stopped w :
  running (flashTimer (rgbi w)) = None ->
  exec (deliver TimerExpiry) w = w.
Proof. intros Hrun. unfold exec, deliver, enabled. now rewrite Hrun. Qed.

(** Running a pending work item. *)
Lemma deliver_work_pending w :
  pending (flashWork (rgbi w)) = true ->
  exec (deliver WorkRun) w
  = exec flashDisplay_handler
      (exec (upd_rgbi (set_flashWork {| pending := false |})) w).
Proof.
  intros Hpend. unfold exec at 1, deliver, enabled. rewrite Hpend.
  unfold work_run. fold (exec (upd_rgbi (set_flashWork {| pending := false |});;
                                flashDisplay_handler) w).
  apply exec_bind.
Qed.

Lemma deliver_work_not_pending w :
  pending (flashWork (rgbi w)) = false ->
  exec (deliver WorkRun) w = w.
Proof. intros Hpend. unfold exec, deliver, enabled. now rewrite Hpend. Qed.

Lemma rgbi_flash_rgbi px onDur offDur count w :
  rgbi (exec (rgbi_flash px onDur offDur count) w)
  = set_flashState 1
      (set_flashTimer {| running := Some onDur; period := K_NO_WAIT |}
         (set_pixels px
            (set_flashesPerformed 0
               (set_flashesAsked count
                  (set_offDuration offDur (set_onDuration onDur (rgbi w))))))).
Proof. run_driver; reflexivity. Qed.

Lemma rgbi_flash_log px onDur offDur count w :
  bus_log (exec (rgbi_flash px onDur offDur count) w)
  = bus_log w ++ on_writes (rgbdev (rgbi w)) px.
Proof. run_driver; rewrite <- !app_assoc; reflexivity. Qed.

(** ** Continuous sequences *)

Lemma flashDisplay_handler_continuous onDur w :
  0 < ticks onDur ->
  continuous onDur w ->
  continuous onDur (exec flashDisplay_handler w).
Proof.
  intros Hpos [Hasked Hon]. unfold continuous.
  assert (Hpos' : 0 < ticks (onDuration (rgbi w))) by now rewrite Hon.
  destruct (Z.eq_dec (flashState (rgbi w)) 0) as [Hoff | Hlit].
  - destruct (flashDisplay_handler_off w Hpos' Hoff) as [Hmore Hnone].
    destruct (Z.lt_ge_cases (flashesPerformed (rgbi w)) (flashesAsked (rgbi w)))
      as [Hlt | Hge].
    + destruct (Hmore Hlt) as [_ ->]. simpl_fields. auto.
    + destruct (Hnone Hge) as [_ ->]. simpl_fields. auto.
  - destruct (flashDisplay_handler_on w Hpos' Hlit) as [_ ->].
    simpl_fields. rewrite Hasked. cbn [Z.eqb]. rewrite orb_true_r.
    simpl_fields. auto.
Qed.

Lemma deliver_continuous onDur e w :
  0 < ticks onDur ->
  continuous onDur w ->
  continuous onDur (exec (deliver e) w).
Proof.
  intros Hpos Hw. destruct e.
  - unfold exec, deliver. destruct (enabled TimerExpiry w); [|exact Hw].
    destruct Hw as [Hasked Hon]. split; assumption.
  - destruct (pending (flashWork (rgbi w))) eqn:Hpend.
    + rewrite deliver_work_pending by assumption.
      apply flashDisplay_handler_continuous; [assumption|].
      destruct Hw as [Hasked Hon]. split; assumption.
    + now rewrite deliver_work_not_pending.
Qed.

Lemma schedule_continuous onDur evs : forall w,
  0 < ticks onDur ->
  continuous onDur w ->
  continuous onDur (exec (schedule evs) w).
Proof.
  induction evs as [|e evs IH]; intros w Hpos Hw.
  - exact Hw.
  - cbn [schedule]. rewrite exec_bind.
    apply IH; [assumption|]. now apply deliver_continuous.
Qed.

(** C3. After [rgbi_flash] with count 0 and a positive on-duration, no
    sequence of timer expiries and work-item runs brings the indicator back
    to idle: the on-duration keeps its value, the request stays continuous
    and [rgbi_isBusy] returns true.  [rgbi_cancel] then makes it idle. *)
Theorem continuous_flash_never_idles_by_itself :
  forall (w : world) (px : led_rgb) (onDur offDur : k_timeout_t)
         (evs : list event),
    0 < ticks onDur ->
    eval rgbi_isBusy (exec (schedule evs) (exec (rgbi_flash px onDur offDur 0) w))
    = true
    /\ onDuration (rgbi (exec (schedule evs) (exec (rgbi_flash px onDur offDur 0) w)))
       = onDur
    /\ flashesAsked (rgbi (exec (schedule evs) (exec (rgbi_flash px onDur offDur 0) w)))
       = 0
    /\ eval rgbi_isBusy
         (exec rgbi_cancel
            (exec (schedule evs) (exec (rgbi_flash px onDur offDur 0) w)))
       = false
    /\ onDuration
         (rgbi (exec rgbi_cancel
                  (exec (schedule evs) (exec (rgbi_flash px onDur offDur 0) w))))
       = K_NO_WAIT.
Proof.
  intros w px onDur offDur evs Hpos.
  assert (Hstart : continuous onDur (exec (rgbi_flash px onDur offDur 0) w)).
  { unfold continuous. rewrite rgbi_flash_rgbi. simpl_fields. auto. }
  destruct (schedule_continuous onDur evs _ Hpos Hstart) as [Hasked Hon].
  split; [|split; [exact Hon|split; [exact Hasked|split]]].
  - unfold eval, rgbi_isBusy, isFlashing, bind, get_rgbi, ret. cbn [fst].
    rewrite Hon. now apply Z.ltb_lt.
  - unfold eval, rgbi_isBusy, isFlashing, bind, get_rgbi, ret. cbn [fst].
    rewrite rgbi_cancel_rgbi. reflexivity.
  - rewrite rgbi_cancel_rgbi. reflexivity.
Qed.

Lemma continuous_flash_never_idles_by_itself_witness :
  0 < ticks (K_TICKS 50)
  /\ eval rgbi_isBusy
       (exec (schedule (rounds 10))
          (exec (rgbi_flash (RGB 0 100 0) (K_TICKS 50) (K_TICKS 50) 0) sample_world))
     = true.
Proof.
  split; [reflexivity|].
  apply (continuous_flash_never_idles_by_itself
           sample_world (RGB 0 100 0) (K_TICKS 50) (K_TICKS 50) (rounds 10)).
  reflexivity.
Defined.

Lemma deliver_continuous_off e w :
  continuous_off w ->
  continuous_off (exec (deliver e) w)
  /\ bus_log (exec (deliver e) w) = bus_log w
  /\ (running (flashTimer (rgbi w)) = None ->
      running (flashTimer (rgbi (exec (deliver e) w))) = None).
Proof.
  intros (Hasked & Hperf & Hper & Hphase & Hqueue). destruct e.
  - (* timer expiry *)
    destruct (running (flashTimer (rgbi w))) as [d|] eqn:Hrun.
    + rewrite (deliver_timer_expiry w d Hrun Hper).
      destruct (exec_upd_rgbi
                  (fun i => set_flashWork {| pending := true |}
                     (set_flashTimer {| running := None; period := K_NO_WAIT |} i)) w)
        as (Hi & Hlog & _).
      unfold continuous_off. rewrite Hi, Hlog. simpl_fields.
      destruct Hphase as [Hoff | [Hnone _]]; [|discriminate].
      repeat split; auto; try (intro Habs; now contradiction Habs).
    + rewrite (deliver_timer_stopped w Hrun).
      unfold continuous_off. rewrite Hrun. auto 10.
  - (* work item *)
    destruct (pending (flashWork (rgbi w))) eqn:Hpend.
    + assert (Hrun : running (flashTimer (rgbi w)) = None).
      { destruct (running (flashTimer (rgbi w))); [|reflexivity].
        assert (true = false) by (apply Hqueue; discriminate). discriminate. }
      assert (Hoff : flashState (rgbi w) = 0).
      { destruct Hphase as [Hoff | [_ Habs]]; [assumption | discriminate]. }
      rewrite (deliver_work_pending w Hpend).
      remember (exec (upd_rgbi (set_flashWork {| pending := false |})) w) as wq eqn:Hwq.
      destruct (exec_upd_rgbi (set_flashWork {| pending := false |}) w)
        as (Hi & Hlog & _).
      rewrite <- Hwq in Hi, Hlog.
      destruct (Z_lt_le_dec 0 (ticks (onDuration (rgbi wq)))) as [Hpos | Hidle].
      * assert (Hoffq : flashState (rgbi wq) = 0) by (rewrite Hi; exact Hoff).
        destruct (flashDisplay_handler_off wq Hpos Hoffq) as [_ Hnone].
        destruct Hnone as [Hlog' Hi'].
        { rewrite Hi. simpl_fields. lia. }
        unfold continuous_off. rewrite Hi', Hlog', Hi, Hlog. simpl_fields.
        rewrite Hrun. repeat split; auto; try (intro Habs; now contradiction Habs).
      * rewrite (flashDisplay_handler_idle wq Hidle).
        unfold continuous_off. rewrite Hi, Hlog. simpl_fields.
        rewrite Hrun. repeat split; auto; try (intro Habs; now contradiction Habs).
    + rewrite (deliver_work_not_pending w Hpend).
      unfold continuous_off. rewrite Hpend. auto 10.
Qed.

Lemma schedule_continuous_off evs : forall w,
  continuous_off w ->
  continuous_off (exec (schedule evs) w)
  /\ bus_log (exec (schedule evs) w) = bus_log w
  /\ (running (flashTimer (rgbi w)) = None ->
      running (flashTimer (rgbi (exec (schedule evs) w))) = None).
Proof.
  induction evs as [|e evs IH]; intros w Hw.
  - cbn. auto.
  - cbn [schedule]. rewrite exec_bind.
    destruct (deliver_continuous_off e w Hw) as (Hw' & Hlog & Hrun).
    destruct (IH _ Hw') as (Hw'' & Hlog' & Hrun').
    rewrite Hlog'. auto.
Qed.

(** One period of a running one-shot timer: expiry, then the work item. *)
Lemma flash_round_running w d :
  running (flashTimer (rgbi w)) = Some d ->
  period (flashTimer (rgbi w)) = K_NO_WAIT ->
  exec (schedule flash_round) w
  = exec flashDisplay_handler
      (exec (upd_rgbi (fun i => set_flashWork {| pending := false |}
                         (set_flashTimer {| running := None; period := K_NO_WAIT |} i)))
         w).
Proof.
  intros Hrun Hper. unfold flash_round. cbn [schedule].
  rewrite !exec_bind. change (exec (ret tt) ?x) with x.
  rewrite (deliver_timer_expiry w d Hrun Hper).
  rewrite deliver_work_pending by reflexivity.
  reflexivity.
Qed.

(** A timer period that ends an on phase. *)
Lemma flash_round_on w :
  running (flashTimer (rgbi w)) <> None ->
  period (flashTimer (rgbi w)) = K_NO_WAIT ->
  0 < ticks (onDuration (rgbi w)) ->
  flashState (rgbi w) <> 0 ->
  bus_log (exec (schedule flash_round) w) = bus_log w ++ off_writes (rgbdev (rgbi w))
  /\ rgbi (exec (schedule flash_round) w)
     = (let i := set_flashesPerformed (wrap_u8 (flashesPerformed (rgbi w) + 1))
                   (set_flashState 0
                      (set_flashWork {| pending := false |}
                         (set_flashTimer {| running := None; period := K_NO_WAIT |}
                            (rgbi w)))) in
        if (flashesPerformed i <? flashesAsked i) || (flashesAsked i =? 0)
        then set_flashTimer {| running := Some (offDuration i); period := K_NO_WAIT |} i
        else set_onDuration K_NO_WAIT
               (set_flashesPerformed 0 (set_flashesAsked 0 i))).
Proof.
  intros Hrun Hper Hpos Hlit.
  destruct (running (flashTimer (rgbi w))) as [d|] eqn:Hr; [|contradiction].
  rewrite (flash_round_running w d Hr Hper).
  exact (flashDisplay_handler_on
           (exec (upd_rgbi (fun i => set_flashWork {| pending := false |}
                       (set_flashTimer {| running := None; period := K_NO_WAIT |} i)))
            w) Hpos Hlit).
Qed.

(** A timer period that ends an off phase. *)
Lemma flash_round_off w :
  running (flashTimer (rgbi w)) <> None ->
  period (flashTimer (rgbi w)) = K_NO_WAIT ->
  0 < ticks (onDuration (rgbi w)) ->
  flashState (rgbi w) = 0 ->
  flashesPerformed (rgbi w) < flashesAsked (rgbi w) ->
  bus_log (exec (schedule flash_round) w)
  = bus_log w ++ on_writes (rgbdev (rgbi w)) (pixels (rgbi w))
  /\ rgbi (exec (schedule flash_round) w)
     = set_flashTimer {| running := Some (onDuration (rgbi w)); period := K_NO_WAIT |}
         (set_flashState 1
            (set_flashWork {| pending := false |}
               (set_flashTimer {| running := None; period := K_NO_WAIT |} (rgbi w)))).
Proof.
  intros Hrun Hper Hpos Hoff Hmore.
  destruct (running (flashTimer (rgbi w))) as [d|] eqn:Hr; [|contradiction].
  rewrite (flash_round_running w d Hr Hper).
  exact (proj1 (flashDisplay_handler_off
                  (exec (upd_rgbi (fun i => set_flashWork {| pending := false |}
                       (set_flashTimer {| running := None; period := K_NO_WAIT |} i)))
            w) Hpos Hoff) Hmore).
Qed.

Lemma continuous_until_off_state px onDur offDur w :
  0 < ticks onDur ->
  bus_log (exec (continuous_until_off px onDur offDur) w)
  = bus_log w ++ on_writes (rgbdev (rgbi w)) px ++ off_writes (rgbdev (rgbi w))
  /\ rgbi (exec (continuous_until_off px onDur offDur) w)
     = set_flashTimer {| running := Some offDur; period := K_NO_WAIT |}
         (set_flashesPerformed 1
            (set_flashState 0
               (set_flashWork {| pending := false |}
                  (set_pixels px
                     (set_flashesAsked 0
                        (set_offDuration offDur (set_onDuration onDur (rgbi w)))))))).
Proof.
  intro Hpos. unfold continuous_until_off. rewrite exec_bind.
  pose proof (rgbi_flash_rgbi px onDur offDur 0 w) as Hi0.
  pose proof (rgbi_flash_log px onDur offDur 0 w) as Hlog0.
  remember (exec (rgbi_flash px onDur offDur 0) w) as w0 eqn:Hw0.
  destruct (flash_round_on w0) as [Hlog Hi];
    try (rewrite Hi0; simpl_fields; (assumption || discriminate || reflexivity)).
  rewrite Hlog, Hi, Hlog0, Hi0. simpl_fields.
  rewrite <- app_assoc. split; reflexivity.
Qed.

(** C4. In a continuous sequence (count 0) whose work item has entered the
    off phase, the guard [flashesPerformed < flashesAsked] is false, so the
    handler writes nothing and leaves the timer alone; no later sequence of
    timer expiries and work-item runs adds a bus write (the on colour is not
    written again), and once the armed off-period timer has expired the
    timer is never running again. *)
Theorem continuous_off_phase_never_relights :
  forall (w : world) (px : led_rgb) (onDur offDur : k_timeout_t)
         (evs : list event),
    0 < ticks onDur ->
    flashesAsked (rgbi (exec (continuous_until_off px onDur offDur) w)) = 0
    /\ flashState (rgbi (exec (continuous_until_off px onDur offDur) w)) = 0
    /\ (flashesPerformed (rgbi (exec (continuous_until_off px onDur offDur) w))
        <? flashesAsked (rgbi (exec (continuous_until_off px onDur offDur) w)))
       = false
    /\ bus_log (exec (continuous_until_off px onDur offDur) w)
       = bus_log w ++ on_writes (rgbdev (rgbi w)) px ++ off_writes (rgbdev (rgbi w))
    /\ bus_log (exec flashDisplay_handler
                  (exec (continuous_until_off px onDur offDur) w))
       = bus_log (exec (continuous_until_off px onDur offDur) w)
    /\ flashTimer (rgbi (exec flashDisplay_handler
                           (exec (continuous_until_off px onDur offDur) w)))
       = flashTimer (rgbi (exec (continuous_until_off px onDur offDur) w))
    /\ bus_log (exec (schedule evs)
                  (exec (continuous_until_off px onDur offDur) w))
       = bus_log (exec (continuous_until_off px onDur offDur) w)
    /\ running (flashTimer (rgbi (exec (schedule (TimerExpiry :: evs))
                                    (exec (continuous_until_off px onDur offDur) w))))
       = None.
Proof.
  intros w px onDur offDur evs Hpos.
  destruct (continuous_until_off_state px onDur offDur w Hpos) as [Hlog1 Hi1].
  remember (exec (continuous_until_off px onDur offDur) w) as w1 eqn:Hw1.
  assert (Hon1 : 0 < ticks (onDuration (rgbi w1))) by (rewrite Hi1; exact Hpos).
  assert (Hoff1 : flashState (rgbi w1) = 0) by (rewrite Hi1; reflexivity).
  assert (Hinv : continuous_off w1).
  { unfold continuous_off. rewrite Hi1. simpl_fields.
    repeat split; auto; lia. }
  destruct (flashDisplay_handler_off w1 Hon1 Hoff1) as [_ Hnone].
  destruct Hnone as [Hlogh Hih].
  { rewrite Hi1. simpl_fields. lia. }
  split; [rewrite Hi1; reflexivity|].
  split; [exact Hoff1|].
  split; [rewrite Hi1; reflexivity|].
  split; [exact Hlog1|].
  split; [exact Hlogh|].
  split; [rewrite Hih; reflexivity|].
  split.
  - apply (schedule_continuous_off evs w1 Hinv).
  - cbn [schedule]. rewrite exec_bind.
    destruct (deliver_continuous_off TimerExpiry w1 Hinv) as (Hinv' & _ & _).
    apply (schedule_continuous_off evs _ Hinv').
    rewrite (deliver_timer_expiry w1 offDur)
      by (rewrite Hi1; reflexivity).
    reflexivity.
Qed.

Lemma continuous_off_phase_never_relights_witness :
  0 < ticks (K_TICKS 50)
  /\ bus_log (exec (schedule (rounds 10))
                (exec (continuous_until_off (RGB 0 100 0) (K_TICKS 50) (K_TICKS 50))
                   sample_world))
     = bus_log (exec (continuous_until_off (RGB 0 100 0) (K_TICKS 50) (K_TICKS 50))
                  sample_world).
Proof.
  split; [reflexivity|].
  apply (continuous_off_phase_never_relights
           sample_world (RGB 0 100 0) (K_TICKS 50) (K_TICKS 50) (rounds 10)).
  reflexivity.
Defined.

(** ** Counted sequences *)

Lemma wrap_u8_small x : 0 <= x < 256 -> wrap_u8 x = x.
Proof. intro Hx. unfold wrap_u8. now apply Z.mod_small. Qed.

Lemma finished_idle_stopped w : finished w -> idle_stopped w.
Proof.
  intros (_ & _ & Hon & Hrun & _). unfold idle_stopped.
  rewrite Hon. auto.
Qed.

Section CountedSequence.

Variables (dev : i2c_dt_spec) (px : led_rgb) (onDur : k_timeout_t) (count : Z).
Hypothesis on_positive : 0 < ticks onDur.
Hypothesis count_u8 : count < 256.

(** On phase, more flashes to come: the off colour is written and the off
    phase is timed. *)
Lemma counted_on_to_off done w :
  counted 1 dev px onDur count done w ->
  0 <= done -> done + 1 < count ->
  counted 0 dev px onDur count (done + 1) (exec (schedule flash_round) w)
  /\ bus_log (exec (schedule flash_round) w) = bus_log w ++ off_writes dev.
Proof.
  intros (Hdev & Hpx & Hon & Hasked & Hperf & Hfs & Hrun & Hper) Hd Hmore.
  destruct (flash_round_on w Hrun Hper) as [Hlog Hi].
  { now rewrite Hon. }
  { rewrite Hfs. discriminate. }
  assert (Hcond : ((done + 1 <? count) || (count =? 0)) = true).
  { apply orb_true_iff. left. apply Z.ltb_lt. lia. }
  cbv zeta in Hi. simpl_fields.
  rewrite Hperf, Hasked, (wrap_u8_small (done + 1)), Hcond in Hi by lia.
  unfold counted. rewrite Hi, Hlog, Hdev. simpl_fields.
  repeat split; auto. discriminate.
Qed.

(** On phase, last flash: the off colour is written and the sequence ends. *)
Lemma counted_on_to_idle done w :
  counted 1 dev px onDur count done w ->
  0 <= done -> done + 1 = count ->
  finished (exec (schedule flash_round) w)
  /\ bus_log (exec (schedule flash_round) w) = bus_log w ++ off_writes dev.
Proof.
  intros (Hdev & Hpx & Hon & Hasked & Hperf & Hfs & Hrun & Hper) Hd Hlast.
  destruct (flash_round_on w Hrun Hper) as [Hlog Hi].
  { now rewrite Hon. }
  { rewrite Hfs. discriminate. }
  assert (Hcond : ((done + 1 <? count) || (count =? 0)) = false).
  { apply orb_false_iff. split; [apply Z.ltb_ge | apply Z.eqb_neq]; lia. }
  cbv zeta in Hi. simpl_fields.
  rewrite Hperf, Hasked, (wrap_u8_small (done + 1)), Hcond in Hi by lia.
  unfold finished. rewrite Hi, Hlog, Hdev. simpl_fields.
  repeat split; auto.
Qed.

(** Off phase, flashes remaining: the colour is written again and the on
    phase is timed. *)
Lemma counted_off_to_on done w :
  counted 0 dev px onDur count done w ->
  done < count ->
  counted 1 dev px onDur count done (exec (schedule flash_round) w)
  /\ bus_log (exec (schedule flash_round) w) = bus_log w ++ on_writes dev px.
Proof.
  intros (Hdev & Hpx & Hon & Hasked & Hperf & Hfs & Hrun & Hper) Hmore.
  destruct (flash_round_off w Hrun Hper) as [Hlog Hi]; try assumption.
  { now rewrite Hon. }
  { lia. }
  unfold counted. rewrite Hi, Hlog, Hdev, Hpx. simpl_fields.
  repeat split; auto. discriminate.
Qed.

(** From the on phase with [S m] flashes still to complete, [2 * m + 1]
    timer periods finish the sequence: the off write of the current flash,
    then [m] further on/off pulses. *)
Lemma counted_sequence_from_on (m : nat) :
  forall (done : Z) (w : world),
    counted 1 dev px onDur count done w ->
    0 <= done -> done + Z.of_nat (S m) = count ->
    finished (exec (schedule (rounds (2 * m + 1))) w)
    /\ bus_log (exec (schedule (rounds (2 * m + 1))) w)
       = bus_log w ++ off_writes dev ++ pulses dev px m.
Proof.
  induction m as [|m IH]; intros done w Hw Hd Hleft.
  - cbn [Nat.mul Nat.add rounds pulses]. rewrite !app_nil_r.
    apply (counted_on_to_idle done w); auto; lia.
  - replace (2 * S m + 1)%nat with (1 + (1 + (2 * m + 1)))%nat by lia.
    cbn [Nat.add rounds]. rewrite !exec_schedule_app.
    destruct (counted_on_to_off done w) as [Hoff Hlog1]; auto; try lia.
    destruct (counted_off_to_on (done + 1) _ Hoff) as [Hon Hlog2]; try lia.
    destruct (IH (done + 1) _ Hon) as [Hfin Hlog3]; try lia.
    split; [exact Hfin|].
    rewrite Hlog3, Hlog2, Hlog1. cbn [pulses].
    rewrite <- !app_assoc. reflexivity.
Qed.

End CountedSequence.

(** C1. A flash request with a positive on-duration and a count N between
    1 and 255, followed by the 2N-1 timer periods it arms, writes exactly N
    on/off pulses to the bus (the on colour, then the off colour, N times
    over, starting with the on colour written by [rgbi_flash]) and ends idle:
    [flashesAsked], [flashesPerformed] and [onDuration] are zero,
    [rgbi_isBusy] returns false, neither the timer nor the work item can
    fire, and no later sequence of events adds a bus write. *)
Theorem counted_flash_sequence :
  forall (w : world) (px : led_rgb) (onDur offDur : k_timeout_t) (count : Z)
         (evs : list event),
    0 < ticks onDur -> 0 < count -> count < 256 ->
    bus_log (exec (counted_sequence px onDur offDur count) w)
    = bus_log w ++ pulses (rgbdev (rgbi w)) px (Z.to_nat count)
    /\ flashesAsked (rgbi (exec (counted_sequence px onDur offDur count) w)) = 0
    /\ flashesPerformed (rgbi (exec (counted_sequence px onDur offDur count) w)) = 0
    /\ onDuration (rgbi (exec (counted_sequence px onDur offDur count) w)) = K_NO_WAIT
    /\ eval rgbi_isBusy (exec (counted_sequence px onDur offDur count) w) = false
    /\ enabled TimerExpiry (exec (counted_sequence px onDur offDur count) w) = false
    /\ enabled WorkRun (exec (counted_sequence px onDur offDur count) w) = false
    /\ bus_log (exec (schedule evs) (exec (counted_sequence px onDur offDur count) w))
       = bus_log (exec (counted_sequence px onDur offDur count) w).
Proof.
  intros w px onDur offDur count evs Hpos Hcount Hlt.
  unfold counted_sequence. rewrite exec_bind.
  pose proof (rgbi_flash_rgbi px onDur offDur count w) as Hi0.
  pose proof (rgbi_flash_log px onDur offDur count w) as Hlog0.
  remember (exec (rgbi_flash px onDur offDur count) w) as w0 eqn:Hw0.
  assert (Hstart : counted 1 (rgbdev (rgbi w)) px onDur count 0 w0).
  { unfold counted. rewrite Hi0. simpl_fields. repeat split; auto. discriminate. }
  destruct (Z.to_nat count) as [|m] eqn:Hn; [lia|].
  replace (2 * S m - 1)%nat with (2 * m + 1)%nat by lia.
  destruct (counted_sequence_from_on (rgbdev (rgbi w)) px onDur count Hpos Hlt
              m 0 w0 Hstart) as [Hfin Hlog]; try lia.
  remember (exec (schedule (rounds (2 * m + 1))) w0) as w1 eqn:Hw1.
  destruct (schedule_idle_stopped evs w1 (finished_idle_stopped w1 Hfin))
    as (_ & Hquiet & _).
  destruct Hfin as (Hasked & Hperf & Hon & Hrun & Hpend).
  split; [|split; [|split; [|split; [|split; [|split; [|split]]]]]]; auto.
  - rewrite Hlog, Hlog0. cbn [pulses]. rewrite <- !app_assoc. reflexivity.
  - unfold eval, rgbi_isBusy, isFlashing, bind, get_rgbi, ret. cbn [fst].
    rewrite Hon. reflexivity.
  - unfold enabled. now rewrite Hrun.
Qed.

Lemma counted_flash_sequence_witness :
  0 < ticks (K_TICKS 100) /\ 0 < 3 /\ 3 < 256
  /\ bus_log (exec (counted_sequence LED_RED (K_TICKS 100) (K_TICKS 200) 3)
                sample_world)
     = bus_log sample_world
       ++ pulses (rgbdev (rgbi sample_world)) LED_RED (Z.to_nat 3).
Proof.
  split; [reflexivity | split; [lia | split; [lia|]]].
  refine (proj1 (counted_flash_sequence
                   sample_world LED_RED (K_TICKS 100) (K_TICKS 200) 3 [] _ _ _));
    [reflexivity | lia | lia].
Defined.

(** The demo colour flashed three times: red on, off, red on, off, red on,
    off, and the indicator is idle again. *)
Example flash_red_three_times :
  map msg_buf
      (bus_log (exec (counted_sequence LED_RED (K_TICKS 100) (K_TICKS 200) 3)
                  sample_world))
  = [ [0x1a; 100]; [0x18; 0]; [0x19; 0];  [0x1a; 0]; [0x18; 0]; [0x19; 0];
      [0x1a; 100]; [0x18; 0]; [0x19; 0];  [0x1a; 0]; [0x18; 0]; [0x19; 0];
      [0x1a; 100]; [0x18; 0]; [0x19; 0];  [0x1a; 0]; [0x18; 0]; [0x19; 0] ]
  /\ eval rgbi_isBusy
       (exec (counted_sequence LED_RED (K_TICKS 100) (K_TICKS 200) 3) sample_world)
     = false.
Proof. vm_compute. split; reflexivity. Qed.

(** * Further properties of the driver *)

(** ** Events in an idle world *)

Lemma isBusy_eq w :
  eval rgbi_isBusy w = (0 <? ticks (onDuration (rgbi w))).
Proof. reflexivity. Qed.

Lemma isBusy_false_iff w :
  eval rgbi_isBusy w = false <-> ticks (onDuration (rgbi w)) <= 0.
Proof.
  unfold eval, rgbi_isBusy, isFlashing, bind, get_rgbi, ret. cbn [fst].
  apply Z.ltb_ge.
Qed.

Lemma isBusy_true_iff w :
  eval rgbi_isBusy w = true <-> 0 < ticks (onDuration (rgbi w)).
Proof.
  unfold eval, rgbi_isBusy, isFlashing, bind, get_rgbi, ret. cbn [fst].
  apply Z.ltb_lt.
Qed.

Lemma deliver_not_busy e w :
  ticks (onDuration (rgbi w)) <= 0 ->
  ticks (onDuration (rgbi (exec (deliver e) w))) <= 0
  /\ bus_log (exec (deliver e) w) = bus_log w
  /\ err_log (exec (deliver e) w) = err_log w.
Proof.
  intro Hidle. destruct e.
  - unfold exec, deliver. destruct (enabled TimerExpiry w); auto.
  - destruct (pending (flashWork (rgbi w))) eqn:Hpend.
    + rewrite (deliver_work_pending w Hpend).
      rewrite flashDisplay_handler_idle by exact Hidle.
      auto.
    + rewrite (deliver_work_not_pending w Hpend). auto.
Qed.

Lemma schedule_not_busy evs : forall w,
  ticks (onDuration (rgbi w)) <= 0 ->
  ticks (onDuration (rgbi (exec (schedule evs) w))) <= 0
  /\ bus_log (exec (schedule evs) w) = bus_log w
  /\ err_log (exec (schedule evs) w) = err_log w.
Proof.
  induction evs as [|e evs IH]; intros w Hw.
  - cbn. auto.
  - cbn [schedule]. rewrite exec_bind.
    destruct (deliver_not_busy e w Hw) as (Hw' & Hlog & Herr).
    destruct (IH _ Hw') as (Hw'' & Hlog' & Herr').
    rewrite Hlog', Herr'. auto.
Qed.

(** X1. While the indicator is not busy, timer expiries and work-item runs
    are silent, whatever the timer and the work queue hold: no sequence of
    them writes to the bus, logs anything, or makes the indicator busy. *)
Theorem events_silent_while_not_busy :
  forall (w : world) (evs : list event),
    eval rgbi_isBusy w = false ->
    bus_log (exec (schedule evs) w) = bus_log w
    /\ err_log (exec (schedule evs) w) = err_log w
    /\ eval rgbi_isBusy (exec (schedule evs) w) = false.
Proof.
  intros w evs Hidle. apply isBusy_false_iff in Hidle.
  destruct (schedule_not_busy evs w Hidle) as (Hidle' & Hlog & Herr).
  split; [exact Hlog | split; [exact Herr | now apply isBusy_false_iff]].
Qed.

Lemma events_silent_while_not_busy_witness :
  eval rgbi_isBusy stale_world = false
  /\ bus_log (exec (schedule (rounds 4)) stale_world) = bus_log stale_world.
Proof.
  split; [reflexivity|].
  refine (proj1 (events_silent_while_not_busy stale_world (rounds 4) _)).
  reflexivity.
Defined.

(** X2. [rgbi_flash] with an on-duration of zero (or less) writes the on
    colour, arms the timer and leaves the indicator not busy; no later
    sequence of events writes again, so the on colour is never turned off by
    the scheduler. *)
Theorem flash_without_on_duration_stays_lit :
  forall (w : world) (px : led_rgb) (onDur offDur : k_timeout_t) (count : Z)
         (evs : list event),
    ticks onDur <= 0 ->
    eval rgbi_isBusy (exec (rgbi_flash px onDur offDur count) w) = false
    /\ running (flashTimer (rgbi (exec (rgbi_flash px onDur offDur count) w)))
       = Some onDur
    /\ bus_log (exec (schedule evs) (exec (rgbi_flash px onDur offDur count) w))
       = bus_log w ++ on_writes (rgbdev (rgbi w)) px
    /\ eval rgbi_isBusy
         (exec (schedule evs) (exec (rgbi_flash px onDur offDur count) w))
       = false.
Proof.
  intros w px onDur offDur count evs Hzero.
  pose proof (rgbi_flash_rgbi px onDur offDur count w) as Hi0.
  pose proof (rgbi_flash_log px onDur offDur count w) as Hlog0.
  remember (exec (rgbi_flash px onDur offDur count) w) as w0 eqn:Hw0.
  assert (Hidle : ticks (onDuration (rgbi w0)) <= 0) by (rewrite Hi0; exact Hzero).
  destruct (schedule_not_busy evs w0 Hidle) as (Hidle' & Hlog & _).
  split; [now apply isBusy_false_iff|].
  split; [rewrite Hi0; reflexivity|].
  split; [now rewrite Hlog|].
  now apply isBusy_false_iff.
Qed.

Lemma flash_without_on_duration_stays_lit_witness :
  ticks K_NO_WAIT <= 0
  /\ eval rgbi_isBusy (exec (rgbi_flash LED_RED K_NO_WAIT (K_TICKS 200) 3) sample_world)
     = false.
Proof.
  split; [cbn; lia|].
  refine (proj1 (flash_without_on_duration_stays_lit
                   sample_world LED_RED K_NO_WAIT (K_TICKS 200) 3 [] _)).
  cbn. lia.
Defined.

(** ** Solid colour *)

(** X3. [rgbi_off] writes the off colour exactly when the indicator is not
    busy, and never changes the indicator object. *)
Theorem rgbi_off_writes_iff_not_busy :
  forall w : world,
    bus_log (exec rgbi_off w)
    = bus_log w ++ (if eval rgbi_isBusy w then []
                    else off_writes (rgbdev (rgbi w)))
    /\ rgbi (exec rgbi_off w) = rgbi w.
Proof.
  intro w. unfold eval, rgbi_isBusy. unfold_driver.
  destruct (0 <? ticks (onDuration (rgbi w))); run_driver;
    rewrite <- ?app_assoc, ?app_nil_r; split; reflexivity.
Qed.

(** X4. The colour write path reports only its third write: an error is
    logged exactly when the write of the blue value fails, and failures of
    the red and green writes leave no trace in the log. *)
Theorem setColor_logs_third_write_only :
  forall (dev : i2c_dt_spec) (red green blue : Z) (w : world),
    err_log (exec (lp5817_setColor dev red green blue) w)
    = err_log w ++ (if reply_at w 2 =? 0 then [] else [ErrUpdateIndicator]).
Proof.
  intros dev red green blue w. unfold reply_at. unfold_driver.
  rewrite !length_app. cbn [length].
  rewrite <- !Nat.add_assoc. cbn [Nat.add].
  run_driver; rewrite ?app_nil_r; reflexivity.
Qed.

(** ** Initialisation *)

Lemma rgbi_init_rgbi dev w :
  rgbi (exec (rgbi_init dev) w)
  = if eval (rgbi_init dev) w =? 0
    then set_flashWork {| pending := false |}
           (set_flashTimer {| running := None; period := K_NO_WAIT |}
              (set_rgbdev dev (rgbi w)))
    else rgbi w.
Proof.
  rewrite rgbi_init_result. unfold rgbi_init. rewrite exec_bind.
  pose proof (lp5817_init_ready_rgbi dev w) as Hi.
  remember (exec (lp5817_init dev) w) as w1 eqn:Hw1.
  destruct (eval (lp5817_init dev) w =? 0); cbn [Z.eqb].
  - unfold_driver. rewrite Hi. reflexivity.
  - exact Hi.
Qed.

(** X5. On a ready bus the value [rgbi_init] returns depends on the result
    of the tenth write (update) alone: 0 when that write returns 0, and -1
    otherwise, whatever the nine earlier writes returned. *)
Theorem rgbi_init_result_is_update_write :
  forall (dev : i2c_dt_spec) (w : world),
    device_is_ready (bus dev) = true ->
    eval (lp5817_init dev) w = reply_at w 9
    /\ eval (rgbi_init dev) w = (if reply_at w 9 =? 0 then 0 else -1).
Proof.
  intros dev w Hready.
  pose proof (lp5817_init_ready_result dev w Hready) as Hres.
  split; [exact Hres|].
  rewrite rgbi_init_result, Hres. reflexivity.
Qed.

Lemma rgbi_init_result_is_update_write_witness :
  device_is_ready (bus sample_dev) = true
  /\ eval (rgbi_init sample_dev) first_write_fails
     = (if reply_at first_write_fails 9 =? 0 then 0 else -1).
Proof.
  split; [reflexivity|].
  refine (proj2 (rgbi_init_result_is_update_write sample_dev first_write_fails _)).
  reflexivity.
Defined.

(** X6. [rgbi_init] touches the indicator only when it returns 0, and then
    only binds the device and resets the timer and the work item: pixels,
    counters, durations and the flash state are never initialised, so the
    indicator is busy after [rgbi_init] exactly when it was busy before. *)
Theorem rgbi_init_keeps_flash_fields :
  forall (dev : i2c_dt_spec) (w : world),
    rgbi (exec (rgbi_init dev) w)
    = (if eval (rgbi_init dev) w =? 0
       then set_flashWork {| pending := false |}
              (set_flashTimer {| running := None; period := K_NO_WAIT |}
                 (set_rgbdev dev (rgbi w)))
       else rgbi w)
    /\ onDuration (rgbi (exec (rgbi_init dev) w)) = onDuration (rgbi w)
    /\ flashesAsked (rgbi (exec (rgbi_init dev) w)) = flashesAsked (rgbi w)
    /\ flashesPerformed (rgbi (exec (rgbi_init dev) w)) = flashesPerformed (rgbi w)
    /\ flashState (rgbi (exec (rgbi_init dev) w)) = flashState (rgbi w)
    /\ eval rgbi_isBusy (exec (rgbi_init dev) w) = eval rgbi_isBusy w.
Proof.
  intros dev w. pose proof (rgbi_init_rgbi dev w) as Hi.
  split; [exact Hi|].
  rewrite !isBusy_eq, Hi.
  destruct (eval (rgbi_init dev) w =? 0); auto 6.
Qed.

(** X7. Once [rgbi_init] has returned 0 for a device, the public colour
    calls address that device: the three writes of a colour change follow
    the initialisation trace with the chip address of [dev]. *)
Theorem init_then_setColor_addresses_device :
  forall (dev : i2c_dt_spec) (red green blue : Z) (w : world),
    eval (rgbi_init dev) w = 0 ->
    bus_log (exec (rgbi_init dev ;; rgbi_setColorFromPixels red green blue) w)
    = bus_log (exec (rgbi_init dev) w) ++ color_writes dev red green blue
    /\ bus_log (exec (rgbi_init dev ;; rgbi_setColor (RGB red green blue)) w)
       = bus_log (exec (rgbi_init dev) w) ++ color_writes dev red green blue.
Proof.
  intros dev red green blue w Hok.
  pose proof (rgbi_init_rgbi dev w) as Hi. rewrite Hok in Hi. cbn [Z.eqb] in Hi.
  rewrite !exec_bind.
  remember (exec (rgbi_init dev) w) as w1 eqn:Hw1.
  assert (Hdev : rgbdev (rgbi w1) = dev) by (rewrite Hi; reflexivity).
  split.
  - change (exec (rgbi_setColorFromPixels red green blue) w1)
      with (exec (lp5817_setColor (rgbdev (rgbi w1)) red green blue) w1).
    now rewrite lp5817_setColor_log, Hdev.
  - change (exec (rgbi_setColor (RGB red green blue)) w1)
      with (exec (lp5817_setColor (rgbdev (rgbi w1)) red green blue) w1).
    now rewrite lp5817_setColor_log, Hdev.
Qed.

Lemma init_then_setColor_addresses_device_witness :
  eval (rgbi_init sample_dev) sample_world = 0
  /\ bus_log (exec (rgbi_init sample_dev ;; rgbi_setColorFromPixels 100 0 0)
                sample_world)
     = bus_log (exec (rgbi_init sample_dev) sample_world)
       ++ color_writes sample_dev 100 0 0.
Proof.
  split; [reflexivity|].
  refine (proj1 (init_then_setColor_addresses_device
                   sample_dev 100 0 0 sample_world _)).
  reflexivity.
Defined.

(** X8. What [lp5817_init] logs on a ready bus, as a function of the ten
    write results: one entry per failed single-register step (chip enable,
    max current, output enable, update), one entry for the dot currents when
    the 32-bit sum of their three results is not zero, and one entry for the
    zero colour when its third write fails.  The results of the first two
    intensity writes (the seventh and eighth transactions) are never
    looked at. *)
Theorem lp5817_init_error_log :
  forall (dev : i2c_dt_spec) (w : world),
    device_is_ready (bus dev) = true ->
    err_log (exec (lp5817_init dev) w)
    = err_log w
      ++ (if reply_at w 0 =? 0 then []
          else [ErrChipEnable 0x00 (addr dev) (reply_at w 0)])
      ++ (if reply_at w 1 =? 0 then [] else [ErrMaxCurrent])
      ++ (if wrap_int (wrap_int (wrap_int (0 + reply_at w 2) + reply_at w 3)
                       + reply_at w 4) =? 0
          then [] else [ErrDotCurrent])
      ++ (if reply_at w 5 =? 0 then [] else [ErrOutEnable])
      ++ (if reply_at w 8 =? 0 then [] else [ErrUpdateIndicator])
      ++ (if reply_at w 9 =? 0 then [] else [ErrApply]).
Proof.
  intros dev w Hready. unfold exec, lp5817_init, reply_at.
  rewrite Hready, Nat.add_0_r.
  unfold_driver.
  repeat (rewrite ?length_app; cbn [length];
          rewrite <- ?Nat.add_assoc; cbn [Nat.add];
          split_write_result; unfold_driver).
  all: rewrite <- ?app_assoc; cbn [app]; rewrite ?app_nil_r; reflexivity.
Qed.

Lemma lp5817_init_error_log_witness :
  device_is_ready (bus sample_dev) = true
  /\ err_log (exec (lp5817_init sample_dev) first_write_fails)
     = [ErrChipEnable 0 45 (-5)].
Proof.
  split; [reflexivity|].
  rewrite (lp5817_init_error_log sample_dev first_write_fails); reflexivity.
Defined.

(** ** Progress of a counted sequence *)

Lemma pulses_snoc dev px k :
  pulses dev px k ++ on_writes dev px ++ off_writes dev = pulses dev px (S k).
Proof.
  induction k as [|k IH].
  - cbn [pulses app]. now rewrite app_nil_r.
  - cbn [pulses] in *. rewrite <- !app_assoc. now rewrite IH.
Qed.

Lemma flash_trace_off dev px k :
  flash_trace dev px k true ++ off_writes dev = flash_trace dev px (S k) false.
Proof.
  unfold flash_trace. now rewrite <- app_assoc, pulses_snoc, app_nil_r.
Qed.

Lemma flash_trace_on dev px k :
  flash_trace dev px k false ++ on_writes dev px = flash_trace dev px k true.
Proof. unfold flash_trace. now rewrite app_nil_r. Qed.

Lemma rounds_succ n : rounds (n + 1) = rounds n ++ flash_round.
Proof.
  induction n as [|n IHn].
  - reflexivity.
  - cbn [Nat.add rounds]. now rewrite IHn, app_assoc.
Qed.

Section SequenceProgress.

Variables (before : list i2c_msg) (dev : i2c_dt_spec) (px : led_rgb).
Variables (onDur offDur : k_timeout_t) (count : Z).
Hypothesis on_positive : 0 < ticks onDur.
Hypothesis count_u8 : count < 256.

Lemma sequence_on_to_off done w :
  sequence_at 1 dev px onDur offDur count done w ->
  0 <= done -> done + 1 < count ->
  sequence_at 0 dev px onDur offDur count (done + 1) (exec (schedule flash_round) w)
  /\ bus_log (exec (schedule flash_round) w) = bus_log w ++ off_writes dev.
Proof.
  intros (Hc & Hoffd & Harmed) Hd Hmore.
  destruct (counted_on_to_off dev px onDur count on_positive count_u8 done w Hc Hd Hmore)
    as [Hc' Hlog].
  destruct Hc as (Hdev & Hpx & Hon & Hasked & Hperf & Hfs & Hrun & Hper).
  destruct (flash_round_on w Hrun Hper) as [_ Hi].
  { now rewrite Hon. }
  { rewrite Hfs. discriminate. }
  assert (Hcond : ((done + 1 <? count) || (count =? 0)) = true).
  { apply orb_true_iff. left. apply Z.ltb_lt. lia. }
  cbv zeta in Hi. simpl_fields.
  rewrite Hperf, Hasked, (wrap_u8_small (done + 1)), Hcond in Hi by lia.
  split; [|exact Hlog]. split; [exact Hc'|].
  rewrite Hi. simpl_fields. rewrite Hoffd. split; reflexivity.
Qed.

Lemma sequence_off_to_on done w :
  sequence_at 0 dev px onDur offDur count done w ->
  done < count ->
  sequence_at 1 dev px onDur offDur count done (exec (schedule flash_round) w)
  /\ bus_log (exec (schedule flash_round) w) = bus_log w ++ on_writes dev px.
Proof.
  intros (Hc & Hoffd & Harmed) Hmore.
  destruct (counted_off_to_on dev px onDur count on_positive done w Hc Hmore)
    as [Hc' Hlog].
  destruct Hc as (Hdev & Hpx & Hon & Hasked & Hperf & Hfs & Hrun & Hper).
  destruct (flash_round_off w Hrun Hper) as [_ Hi]; try assumption.
  { now rewrite Hon. }
  { lia. }
  split; [|exact Hlog]. split; [exact Hc'|].
  rewrite Hi. simpl_fields. rewrite Hon. split; [assumption | reflexivity].
Qed.

(** [i] further complete pulses from the on phase. *)
Lemma sequence_after_pulses (i : nat) :
  forall (k : nat) (w : world),
    sequence_at 1 dev px onDur offDur count (Z.of_nat k) w ->
    bus_log w = before ++ flash_trace dev px k true ->
    Z.of_nat (k + i) < count ->
    sequence_at 1 dev px onDur offDur count (Z.of_nat (k + i))
      (exec (schedule (rounds (2 * i))) w)
    /\ bus_log (exec (schedule (rounds (2 * i))) w)
       = before ++ flash_trace dev px (k + i) true.
Proof.
  induction i as [|i IH]; intros k w Hw Hlog Hlt.
  - rewrite Nat.add_0_r. cbn. auto.
  - replace (2 * S i)%nat with (1 + (1 + 2 * i))%nat by lia.
    cbn [Nat.add rounds]. rewrite !exec_schedule_app.
    destruct (sequence_on_to_off (Z.of_nat k) w Hw) as [Hoff Hlog1]; try lia.
    destruct (sequence_off_to_on (Z.of_nat k + 1) _ Hoff) as [Hon Hlog2]; try lia.
    replace (Z.of_nat k + 1) with (Z.of_nat (S k)) in Hon by lia.
    replace (k + S i)%nat with (S k + i)%nat by lia.
    apply IH; [exact Hon | | lia].
    rewrite Hlog2, Hlog1, Hlog, <- !app_assoc.
    now rewrite (app_assoc (flash_trace dev px k true)), flash_trace_off, flash_trace_on.
Qed.

End SequenceProgress.

Lemma rgbi_flash_sequence_at px onDur offDur count w :
  sequence_at 1 (rgbdev (rgbi w)) px onDur offDur count (Z.of_nat 0)
    (exec (rgbi_flash px onDur offDur count) w)
  /\ bus_log (exec (rgbi_flash px onDur offDur count) w)
     = bus_log w ++ flash_trace (rgbdev (rgbi w)) px 0 true.
Proof.
  split.
  - unfold sequence_at, counted. rewrite rgbi_flash_rgbi. simpl_fields.
    repeat split; auto. discriminate.
  - rewrite rgbi_flash_log. reflexivity.
Qed.

(** X9. The on phases of a counted sequence.  After [rgbi_flash] with a
    positive on-duration and [i] completed pulses ([2 * i] timer periods,
    [i] less than the count), the indicator is busy in the on phase with
    [flashesPerformed = i], the timer is armed for the on-duration, and the
    bus has seen [i] pulses followed by the on colour. *)
Theorem counted_sequence_on_phase :
  forall (w : world) (px : led_rgb) (onDur offDur : k_timeout_t) (count : Z)
         (i : nat),
    0 < ticks onDur -> Z.of_nat i < count -> count < 256 ->
    eval rgbi_isBusy
      (exec (schedule (rounds (2 * i))) (exec (rgbi_flash px onDur offDur count) w))
    = true
    /\ flashState
         (rgbi (exec (schedule (rounds (2 * i)))
                  (exec (rgbi_flash px onDur offDur count) w))) = 1
    /\ flashesPerformed
         (rgbi (exec (schedule (rounds (2 * i)))
                  (exec (rgbi_flash px onDur offDur count) w))) = Z.of_nat i
    /\ running
         (flashTimer
            (rgbi (exec (schedule (rounds (2 * i)))
                     (exec (rgbi_flash px onDur offDur count) w)))) = Some onDur
    /\ bus_log (exec (schedule (rounds (2 * i)))
                  (exec (rgbi_flash px onDur offDur count) w))
       = bus_log w ++ flash_trace (rgbdev (rgbi w)) px i true.
Proof.
  intros w px onDur offDur count i Hpos Hi Hlt.
  destruct (rgbi_flash_sequence_at px onDur offDur count w) as [Hstart Hlog0].
  destruct (sequence_after_pulses (bus_log w) (rgbdev (rgbi w)) px onDur offDur count
              Hpos Hlt i 0%nat _ Hstart Hlog0) as [Hat Hlog]; [cbn [Nat.add]; lia|].
  cbn [Nat.add] in Hat, Hlog.
  destruct Hat as ((_ & _ & Hon & _ & Hperf & Hfs & _ & _) & _ & Harmed).
  split; [apply isBusy_true_iff; now rewrite Hon|].
  split; [exact Hfs|]. split; [exact Hperf|]. split; [exact Harmed | exact Hlog].
Qed.

Lemma counted_sequence_on_phase_witness :
  0 < ticks (K_TICKS 100) /\ Z.of_nat 2 < 3 /\ 3 < 256
  /\ eval rgbi_isBusy
       (exec (schedule (rounds (2 * 2)))
          (exec (rgbi_flash LED_RED (K_TICKS 100) (K_TICKS 200) 3) sample_world))
     = true.
Proof.
  split; [reflexivity | split; [cbn; lia | split; [lia|]]].
  refine (proj1 (counted_sequence_on_phase
                   sample_world LED_RED (K_TICKS 100) (K_TICKS 200) 3 2 _ _ _));
    [reflexivity | cbn; lia | lia].
Defined.

(** X10. The off phases of a counted sequence.  After [i] completed pulses
    and one more timer period, with at least one flash still to come, the
    indicator is busy in the off phase with [flashesPerformed = i + 1], the
    timer is armed for the off-duration, and the bus has seen [i + 1]
    complete pulses. *)
Theorem counted_sequence_off_phase :
  forall (w : world) (px : led_rgb) (onDur offDur : k_timeout_t) (count : Z)
         (i : nat),
    0 < ticks onDur -> Z.of_nat i + 1 < count -> count < 256 ->
    eval rgbi_isBusy
      (exec (schedule (rounds (2 * i + 1))) (exec (rgbi_flash px onDur offDur count) w))
    = true
    /\ flashState
         (rgbi (exec (schedule (rounds (2 * i + 1)))
                  (exec (rgbi_flash px onDur offDur count) w))) = 0
    /\ flashesPerformed
         (rgbi (exec (schedule (rounds (2 * i + 1)))
                  (exec (rgbi_flash px onDur offDur count) w))) = Z.of_nat i + 1
    /\ running
         (flashTimer
            (rgbi (exec (schedule (rounds (2 * i + 1)))
                     (exec (rgbi_flash px onDur offDur count) w)))) = Some offDur
    /\ bus_log (exec (schedule (rounds (2 * i + 1)))
                  (exec (rgbi_flash px onDur offDur count) w))
       = bus_log w ++ pulses (rgbdev (rgbi w)) px (S i).
Proof.
  intros w px onDur offDur count i Hpos Hi Hlt.
  destruct (rgbi_flash_sequence_at px onDur offDur count w) as [Hstart Hlog0].
  destruct (sequence_after_pulses (bus_log w) (rgbdev (rgbi w)) px onDur offDur count
              Hpos Hlt i 0%nat _ Hstart Hlog0) as [Hat Hlog]; [cbn [Nat.add]; lia|].
  cbn [Nat.add] in Hat, Hlog.
  rewrite rounds_succ, exec_schedule_app.
  remember (exec (schedule (rounds (2 * i))) (exec (rgbi_flash px onDur offDur count) w))
    as w1 eqn:Hw1.
  destruct (sequence_on_to_off (rgbdev (rgbi w)) px onDur offDur count Hpos Hlt
              (Z.of_nat i) w1 Hat) as [Hoff Hlog1]; try lia.
  destruct Hoff as ((_ & _ & Hon & _ & Hperf & Hfs & _ & _) & _ & Harmed).
  split; [apply isBusy_true_iff; now rewrite Hon|].
  split; [exact Hfs|]. split; [exact Hperf|]. split; [exact Harmed|].
  rewrite Hlog1, Hlog, <- app_assoc, flash_trace_off.
  unfold flash_trace. now rewrite app_nil_r.
Qed.

Lemma counted_sequence_off_phase_witness :
  0 < ticks (K_TICKS 100) /\ Z.of_nat 1 + 1 < 3 /\ 3 < 256
  /\ eval rgbi_isBusy
       (exec (schedule (rounds (2 * 1 + 1)))
          (exec (rgbi_flash LED_RED (K_TICKS 100) (K_TICKS 200) 3) sample_world))
     = true.
Proof.
  split; [reflexivity | split; [cbn; lia | split; [lia|]]].
  refine (proj1 (counted_sequence_off_phase
                   sample_world LED_RED (K_TICKS 100) (K_TICKS 200) 3 1 _ _ _));
    [reflexivity | cbn; lia | lia].
Defined.

(** ** Counted sequences under every schedule *)

Section AnySchedule.

Variables (before : list i2c_msg) (dev : i2c_dt_spec) (px : led_rgb).
Variables (onDur : k_timeout_t) (count : Z).
Hypothesis on_positive : 0 < ticks onDur.
Hypothesis count_u8 : count < 256.

Lemma flashDisplay_handler_counted_progress w :
  counted_progress before dev px onDur count w ->
  counted_progress before dev px onDur count (exec flashDisplay_handler w).
Proof.
  intros (Hdev & Hpx & [(Hon & Hasked & k & Hperf & Hk & Hphase) | (Hzero & Hlog)]).
  - assert (Hpos : 0 < ticks (onDuration (rgbi w))) by now rewrite Hon.
    destruct Hphase as [[Hfs Hlog] | [Hfs Hlog]].
    + (* on phase *)
      destruct (flashDisplay_handler_on w Hpos) as [Hlog' Hi'].
      { rewrite Hfs. discriminate. }
      cbv zeta in Hi'. simpl_fields.
      rewrite Hperf, Hasked, (wrap_u8_small (Z.of_nat k + 1)) in Hi' by lia.
      unfold counted_progress.
      rewrite Hlog', Hlog, Hdev, <- app_assoc, flash_trace_off.
      destruct (Z.eq_dec (Z.of_nat k + 1) count) as [Hlast | Hmore].
      * assert (Hcond : ((Z.of_nat k + 1 <? count) || (count =? 0)) = false).
        { apply orb_false_iff. split; [apply Z.ltb_ge | apply Z.eqb_neq]; lia. }
        rewrite Hcond in Hi'. rewrite Hi'. simpl_fields.
        split; [assumption | split; [assumption | right]].
        split; [reflexivity|].
        replace (Z.to_nat count) with (S k) by lia.
        unfold flash_trace. now rewrite app_nil_r.
      * assert (Hcond : ((Z.of_nat k + 1 <? count) || (count =? 0)) = true).
        { apply orb_true_iff. left. apply Z.ltb_lt. lia. }
        rewrite Hcond in Hi'. rewrite Hi'. simpl_fields.
        split; [assumption | split; [assumption | left]].
        split; [assumption | split; [assumption|]].
        exists (S k). split; [lia | split; [lia | right]]. auto.
    + (* off phase *)
      destruct (flashDisplay_handler_off w Hpos Hfs) as [Hlit _].
      destruct Hlit as [Hlog' Hi']; [lia|].
      unfold counted_progress.
      rewrite Hlog', Hlog, Hi', Hdev, Hpx, <- app_assoc, flash_trace_on.
      simpl_fields.
      split; [assumption | split; [assumption | left]].
      split; [assumption | split; [assumption|]].
      exists k. split; [assumption | split; [assumption | left]]. auto.
  - rewrite flashDisplay_handler_idle by lia.
    unfold counted_progress. auto.
Qed.

Lemma deliver_counted_progress e w :
  counted_progress before dev px onDur count w ->
  counted_progress before dev px onDur count (exec (deliver e) w).
Proof.
  intro Hw. destruct e.
  - unfold exec, deliver. destruct (enabled TimerExpiry w); [|exact Hw].
    exact Hw.
  - destruct (pending (flashWork (rgbi w))) eqn:Hpend.
    + rewrite (deliver_work_pending w Hpend).
      apply flashDisplay_handler_counted_progress. exact Hw.
    + now rewrite (deliver_work_not_pending w Hpend).
Qed.

Lemma schedule_counted_progress evs : forall w,
  counted_progress before dev px onDur count w ->
  counted_progress before dev px onDur count (exec (schedule evs) w).
Proof.
  induction evs as [|e evs IH]; intros w Hw.
  - exact Hw.
  - cbn [schedule]. rewrite exec_bind. apply IH.
    now apply deliver_counted_progress.
Qed.

End AnySchedule.

(** X11. A counted sequence under every interleaving.  After [rgbi_flash]
    with a positive on-duration and a count N between 1 and 255, whatever
    sequence of timer expiries and work-item runs follows (stale work items
    included), the bus trace is always [k] complete on/off pulses, followed
    by one more on colour in the on phase.  While the indicator is busy
    [flashesPerformed = k < N = flashesAsked]; once it is no longer busy the
    trace is exactly N pulses.  So the colours strictly alternate and never
    more than N pulses are written. *)
Theorem counted_flash_any_schedule :
  forall (w : world) (px : led_rgb) (onDur offDur : k_timeout_t) (count : Z)
         (evs : list event),
    0 < ticks onDur -> 0 < count -> count < 256 ->
    exists (k : nat) (lit : bool),
      bus_log (exec (schedule evs) (exec (rgbi_flash px onDur offDur count) w))
      = bus_log w ++ flash_trace (rgbdev (rgbi w)) px k lit
      /\ ((eval rgbi_isBusy
             (exec (schedule evs) (exec (rgbi_flash px onDur offDur count) w))
           = true
           /\ flashesAsked
                (rgbi (exec (schedule evs) (exec (rgbi_flash px onDur offDur count) w)))
              = count
           /\ flashesPerformed
                (rgbi (exec (schedule evs) (exec (rgbi_flash px onDur offDur count) w)))
              = Z.of_nat k
           /\ Z.of_nat k < count)
          \/ (eval rgbi_isBusy
                (exec (schedule evs) (exec (rgbi_flash px onDur offDur count) w))
              = false
              /\ k = Z.to_nat count
              /\ lit = false)).
Proof.
  intros w px onDur offDur count evs Hpos Hcount Hlt.
  assert (Hstart : counted_progress (bus_log w) (rgbdev (rgbi w)) px onDur count
                     (exec (rgbi_flash px onDur offDur count) w)).
  { unfold counted_progress. rewrite rgbi_flash_rgbi, rgbi_flash_log. simpl_fields.
    split; [reflexivity | split; [reflexivity | left]].
    split; [reflexivity | split; [reflexivity|]].
    exists 0%nat. split; [reflexivity | split; [exact Hcount | left]].
    split; reflexivity. }
  pose proof (schedule_counted_progress (bus_log w) (rgbdev (rgbi w)) px onDur count
                Hpos Hlt evs _ Hstart) as Hend.
  remember (exec (schedule evs) (exec (rgbi_flash px onDur offDur count) w)) as w1.
  destruct Hend as (_ & _ & [(Hon & Hasked & k & Hperf & Hk & Hphase) | (Hzero & Hlog)]).
  - assert (Hbusy : eval rgbi_isBusy w1 = true)
      by (apply isBusy_true_iff; now rewrite Hon).
    destruct Hphase as [[_ Hlog] | [_ Hlog]].
    + exists k, true. split; [exact Hlog | left; auto].
    + exists k, false. split; [exact Hlog | left; auto].
  - exists (Z.to_nat count), false. split.
    + rewrite Hlog. unfold flash_trace. now rewrite app_nil_r.
    + right. split; [apply isBusy_false_iff; lia | auto].
Qed.

Lemma counted_flash_any_schedule_witness :
  0 < ticks (K_TICKS 100) /\ 0 < 3 /\ 3 < 256
  /\ exists (k : nat) (lit : bool),
       bus_log (exec (schedule [WorkRun; TimerExpiry; TimerExpiry; WorkRun])
                  (exec (rgbi_flash LED_RED (K_TICKS 100) (K_TICKS 200) 3) stale_world))
       = bus_log stale_world ++ flash_trace (rgbdev (rgbi stale_world)) LED_RED k lit.
Proof.
  split; [reflexivity | split; [lia | split; [lia|]]].
  destruct (counted_flash_any_schedule
              stale_world LED_RED (K_TICKS 100) (K_TICKS 200) 3
              [WorkRun; TimerExpiry; TimerExpiry; WorkRun])
    as (k & lit & Hlog & _); [reflexivity | lia | lia |].
  exists k, lit. exact Hlog.
Defined.

(** ** Continuous sequences under every schedule *)

Lemma deliver_continuous_lit before dev px e w :
  continuous_lit before dev px w ->
  continuous_lit before dev px (exec (deliver e) w)
  \/ (continuous_off (exec (deliver e) w)
      /\ bus_log (exec (deliver e) w)
         = before ++ on_writes dev px ++ off_writes dev).
Proof.
  intros Hw. destruct e.
  - left. unfold exec, deliver. destruct (enabled TimerExpiry w); exact Hw.
  - destruct (pending (flashWork (rgbi w))) eqn:Hpend.
    + right. rewrite (deliver_work_pending w Hpend).
      destruct Hw as (Hdev & Hasked & Hpos & Hfs & Hlog).
      remember (exec (upd_rgbi (set_flashWork {| pending := false |})) w) as wq eqn:Hwq.
      assert (Hiq : rgbi wq = set_flashWork {| pending := false |} (rgbi w))
        by (subst wq; reflexivity).
      assert (Hlogq : bus_log wq = bus_log w) by (subst wq; reflexivity).
      destruct (flashDisplay_handler_on wq) as [Hlog' Hi'].
      { rewrite Hiq. exact Hpos. }
      { rewrite Hiq. simpl_fields. rewrite Hfs. discriminate. }
      rewrite Hiq in Hi', Hlog'. rewrite Hlogq in Hlog'.
      cbv zeta in Hi'. simpl_fields.
      rewrite Hasked in Hi'. cbn [Z.eqb] in Hi'. rewrite orb_true_r in Hi'.
      split.
      * unfold continuous_off. rewrite Hi'. simpl_fields.
        split; [assumption|]. split.
        { unfold wrap_u8.
          apply (Z.mod_pos_bound (flashesPerformed (rgbi w) + 1) 256). lia. }
        split; [reflexivity|]. split; [now left | reflexivity].
      * rewrite Hlog', Hlog, Hdev, <- app_assoc. reflexivity.
    + left. now rewrite (deliver_work_not_pending w Hpend).
Qed.

Lemma schedule_continuous_lit before dev px evs : forall w,
  continuous_lit before dev px w ->
  bus_log (exec (schedule evs) w) = before ++ on_writes dev px
  \/ bus_log (exec (schedule evs) w)
     = before ++ on_writes dev px ++ off_writes dev.
Proof.
  induction evs as [|e evs IH]; intros w Hw.
  - left. apply Hw.
  - cbn [schedule]. rewrite exec_bind.
    destruct (deliver_continuous_lit before dev px e w Hw) as [Hlit | [Hoff Hlog]].
    + now apply IH.
    + right. destruct (schedule_continuous_off evs _ Hoff) as (_ & Hsame & _).
      now rewrite Hsame.
Qed.

(** X12. A continuous sequence under every interleaving.  After
    [rgbi_flash] with count 0 and a positive on-duration, whatever sequence
    of timer expiries and work-item runs follows, the bus trace is the on
    colour, or the on colour followed by the off colour, and nothing more:
    the indicator blinks at most once. *)
Theorem continuous_flash_blinks_at_most_once :
  forall (w : world) (px : led_rgb) (onDur offDur : k_timeout_t)
         (evs : list event),
    0 < ticks onDur ->
    bus_log (exec (schedule evs) (exec (rgbi_flash px onDur offDur 0) w))
    = bus_log w ++ on_writes (rgbdev (rgbi w)) px
    \/ bus_log (exec (schedule evs) (exec (rgbi_flash px onDur offDur 0) w))
       = bus_log w ++ on_writes (rgbdev (rgbi w)) px
                   ++ off_writes (rgbdev (rgbi w)).
Proof.
  intros w px onDur offDur evs Hpos.
  apply schedule_continuous_lit.
  unfold continuous_lit. rewrite rgbi_flash_rgbi, rgbi_flash_log. simpl_fields.
  repeat split; auto.
Qed.

Lemma continuous_flash_blinks_at_most_once_witness :
  0 < ticks (K_TICKS 50)
  /\ (bus_log (exec (schedule (rounds 10))
                 (exec (rgbi_flash (RGB 0 100 0) (K_TICKS 50) (K_TICKS 50) 0)
                    sample_world))
      = bus_log sample_world ++ on_writes (rgbdev (rgbi sample_world)) (RGB 0 100 0)
      \/ bus_log (exec (schedule (rounds 10))
                    (exec (rgbi_flash (RGB 0 100 0) (K_TICKS 50) (K_TICKS 50) 0)
                       sample_world))
         = bus_log sample_world ++ on_writes (rgbdev (rgbi sample_world)) (RGB 0 100 0)
                                ++ off_writes (rgbdev (rgbi sample_world))).
Proof.
  split; [reflexivity|].
  refine (continuous_flash_blinks_at_most_once
            sample_world (RGB 0 100 0) (K_TICKS 50) (K_TICKS 50) (rounds 10) _).
  reflexivity.
Defined.

(** ** A work item left over from an earlier sequence *)

(** X13. [rgbi_flash] does not clear a work item that is still queued.  If
    one is pending when a flash with a positive on-duration is requested, it
    can run at once, with no timer expiry: the handler takes it for the end
    of the on phase and writes the off colour straight after the on
    colour. *)
Theorem flash_with_stale_work_is_cut_short :
  forall (w : world) (px : led_rgb) (onDur offDur : k_timeout_t) (count : Z),
    pending (flashWork (rgbi w)) = true ->
    0 < ticks onDur ->
    enabled WorkRun (exec (rgbi_flash px onDur offDur count) w) = true
    /\ bus_log (exec (deliver WorkRun) (exec (rgbi_flash px onDur offDur count) w))
       = bus_log w ++ on_writes (rgbdev (rgbi w)) px
                   ++ off_writes (rgbdev (rgbi w))
    /\ flashState
         (rgbi (exec (deliver WorkRun) (exec (rgbi_flash px onDur offDur count) w)))
       = 0.
Proof.
  intros w px onDur offDur count Hpend Hpos.
  pose proof (rgbi_flash_rgbi px onDur offDur count w) as Hi0.
  pose proof (rgbi_flash_log px onDur offDur count w) as Hlog0.
  remember (exec (rgbi_flash px onDur offDur count) w) as w0 eqn:Hw0.
  assert (Hpend0 : pending (flashWork (rgbi w0)) = true)
    by (rewrite Hi0; exact Hpend).
  split; [exact Hpend0|].
  rewrite (deliver_work_pending w0 Hpend0).
  remember (exec (upd_rgbi (set_flashWork {| pending := false |})) w0) as wq eqn:Hwq.
  assert (Hiq : rgbi wq = set_flashWork {| pending := false |} (rgbi w0))
    by (subst wq; reflexivity).
  assert (Hlogq : bus_log wq = bus_log w0) by (subst wq; reflexivity).
  destruct (flashDisplay_handler_on wq) as [Hlog' Hi'].
  { rewrite Hiq, Hi0. exact Hpos. }
  { rewrite Hiq, Hi0. discriminate. }
  rewrite Hiq in Hi', Hlog'. rewrite Hlogq in Hlog'. simpl_fields.
  split.
  - rewrite Hlog', Hlog0, Hi0, <- app_assoc. reflexivity.
  - rewrite Hi'. cbv zeta.
    match goal with |- context [if ?c then _ else _] => destruct c end;
      reflexivity.
Qed.

Lemma flash_with_stale_work_is_cut_short_witness :
  pending (flashWork (rgbi stale_world)) = true
  /\ 0 < ticks (K_TICKS 100)
  /\ enabled WorkRun
       (exec (rgbi_flash LED_RED (K_TICKS 100) (K_TICKS 200) 3) stale_world)
     = true.
Proof.
  split; [reflexivity | split; [reflexivity|]].
  refine (proj1 (flash_with_stale_work_is_cut_short
                   stale_world LED_RED (K_TICKS 100) (K_TICKS 200) 3 _ _));
    reflexivity.
Defined.
